(** * Scheduler: schedule validation and extrinsic lifecycle

    A shallow embedding of [src/scheduler.ts] (class [Scheduler]).

    - JavaScript numbers that hold integers (timestamps, [Date.now()],
      amounts, lengths) are values of [Z]; [%] is the truncated remainder
      [Z.rem] (sign of the dividend).  The quotient [a / b] is a value of
      [Q], kept in lowest terms: the double nearest to the exact quotient,
      ties to even, as IEEE 754 has it.
    - [throw new Error(msg)] is the left injection of a sum; the message is
      the one of the source.
    - Methods that talk to the node or to the console are functions in a
      state-and-exception monad whose state records the cached API client,
      the console lines and the interactions with the outside world, in
      order.  A throw keeps the effects performed before it. *)

From Stdlib Require Import ZArith QArith Qreduction Qabs List String Bool Lia.
From Stdlib Require Import DecimalString Permutation SpecFloat.
Import ListNotations.
Local Open Scope string_scope.
Local Open Scope list_scope.
Local Open Scope Z_scope.

(** ** JavaScript values *)

(** [new Error(message)]. *)
Inductive Error : Type := MkError (message : string).

Definition message (e : Error) : string :=
  match e with MkError m => m end.

Module JS.

(** The integer nearest to [n / d], for [d] positive; of two integers at
    the same distance the even one. *)
Definition round_half_even (n d : Z) : Z :=
  let q := n / d in
  let r := n mod d in
  if 2 * r <? d then q
  else if d <? 2 * r then q + 1
  else if Z.even q then q else q + 1.

(** The binary exponent of [a / d], for [a] and [d] positive: the [e]
    with [2 ^ e <= a / d < 2 ^ (e + 1)]. *)
Definition exponent (a d : Z) : Z :=
  let e0 := Z.log2 a - Z.log2 d in
  if (if 0 <=? e0 then d * 2 ^ e0 <=? a else d <=? a * 2 ^ (- e0))
  then e0 else e0 - 1.

(** The double nearest to [n / d], for [d] positive: the quotient is
    rounded to 53 significant bits.  Exponents beyond those of the normal
    doubles do not occur for the quotients of two safe integers. *)
Definition binary64 (n d : Z) : Q :=
  if n =? 0 then 0%Q
  else
    let shift := 52 - exponent (Z.abs n) d in
    if 0 <=? shift
    then Qred (Qmake (round_half_even (n * 2 ^ shift) d) (Z.to_pos (2 ^ shift)))
    else inject_Z (round_half_even n (d * 2 ^ (- shift)) * 2 ^ (- shift)).

(** [Number.isSafeInteger]: the integers that a double holds exactly,
    together with their neighbours. *)
Definition isSafeInteger (a : Z) : bool := Z.abs a <? 2 ^ 53.

(** [a / b] on integer-valued numbers with [b] not zero: the double
    nearest to the quotient.  Beyond the safe integers a value of [Z] does
    not stand for one double; there the quotient is kept exact, as the sum
    and the remainder are everywhere. *)
Definition div (a b : Z) : Q :=
  if isSafeInteger a && isSafeInteger b && negb (b =? 0)
  then (if 0 <? b then binary64 a b else binary64 (- a) (- b))
  else Qred (inject_Z a / inject_Z b).

(** The value of a finite float of the reference implementation of
    IEEE 754 in the library. *)
Definition SF2Q (x : spec_float) : option Q :=
  match x with
  | S754_zero _ => Some 0%Q
  | S754_finite s m e =>
      let z := if s then Z.neg m else Z.pos m in
      Some (if 0 <=? e then inject_Z (z * 2 ^ e)
            else Qred (Qmake z (Z.to_pos (2 ^ (- e)))))
  | _ => None
  end.

(** The quotient of two integers as binary64 division computes it in the
    reference implementation. *)
Definition reference_div (a b : Z) : option Q :=
  SF2Q (SFdiv 53 1024 (binary_normalize 53 1024 a 0 false)
                      (binary_normalize 53 1024 b 0 false)).

(** [a < b] where [a] is integer-valued and [b] any number. *)
Definition lt (a : Z) (b : Q) : bool := negb (Qle_bool b (inject_Z a)).

(** [`${n}`] for an integer-valued number. *)
Definition toString (n : Z) : string := NilZero.string_of_int (Z.to_int n).

(** [a === b] on strings. *)
Definition strict_eq (a b : string) : bool := String.eqb a b.

End JS.

(** A call either throws or returns. *)
Definition Result (A : Type) : Type := (Error + A)%type.

Definition throw {A : Type} (e : Error) : Result A := inl e.
Definition returns {A : Type} (a : A) : Result A := inr a.

(** ** Constants imported from [./constants] *)

(** Modelled from the spec: [./constants] is not among the sources; the
    recurring-task limit is 24 (Rule 1). *)
Definition RECURRING_TASK_LIMIT : Z := 24.

(** Modelled from the spec: [./constants] is not among the sources; with
    [MIN_IN_HOUR] the product is the 3600 of Rule 3. *)
Definition SEC_IN_MIN : Z := 60.

(** Modelled from the spec: [./constants] is not among the sources; with
    [SEC_IN_MIN] the product is the 3600 of Rule 3. *)
Definition MIN_IN_HOUR : Z := 60.

(** Modelled from the spec: [./constants] is not among the sources;
    milliseconds are turned into seconds by dividing by 1000. *)
Definition MS_IN_SEC : Z := 1000.

(** ** Error values thrown by the validators *)

Definition TooManyTasks : Error :=
  MkError ("Recurring Task length cannot exceed " ++ JS.toString RECURRING_TASK_LIMIT)%string.
Definition TimestampInPast : Error := MkError "Scheduled timestamp in the past".
Definition NotHourAligned : Error := MkError "Timestamp is not an hour timestamp".
Definition TooFarInFuture : Error := MkError "Timestamp too far in future".
Definition AmountTooLow : Error := MkError "Amount too low".
Definition SelfTransferNotAllowed : Error := MkError "Cannot send to self".

(** ** lodash *)

(** [_.forEach(xs, f)] for an [f] that returns [undefined]: [f] is run on
    the elements in order, and a throw of [f] ends the iteration. *)
Fixpoint forEach {A : Type} (xs : list A) (f : A -> Result unit) : Result unit :=
  match xs with
  | [] => returns tt
  | x :: rest =>
      match f x with
      | inl e => throw e
      | inr _ => forEach rest f
      end
  end.

(** ** Pure methods of [Scheduler] *)

Section Validation.

(** [this.schedulingTimeLimit], read from [OakChainSchedulingLimit[chain]]
    by the constructor; the table is in [./constants]. *)
Variable schedulingTimeLimit : Z.

(** [LOWEST_TRANSFERRABLE_AMOUNT] of [./constants]. *)
Variable LOWEST_TRANSFERRABLE_AMOUNT : Z.

(** [convertToSeconds], lines 57-63. *)
Definition convertToSeconds (startTimestamps : list Z) : list Q :=
  map (fun startTimestamp =>
         let isMillisecond := startTimestamp >? 100000000000 in
         if isMillisecond then JS.div startTimestamp MS_IN_SEC
         else inject_Z startTimestamp)
      startTimestamps.

(** [nextAvailableHour], lines 121-122. *)
Definition nextAvailableHour (currentTime : Z) : Q :=
  JS.div (currentTime
          - Z.rem currentTime (SEC_IN_MIN * MIN_IN_HOUR * MS_IN_SEC)
          + SEC_IN_MIN * MIN_IN_HOUR * MS_IN_SEC)
         1000.

(** The callback given to [_.forEach], lines 123-127. *)
Definition checkTimestamp (currentTime : Z) (timestamp : Z) : Result unit :=
  if JS.lt timestamp (nextAvailableHour currentTime)
  then throw TimestampInPast
  else if negb (Z.rem timestamp (SEC_IN_MIN * MIN_IN_HOUR) =? 0)
  then throw NotHourAligned
  else if timestamp >? currentTime + schedulingTimeLimit
  then throw TooFarInFuture
  else returns tt.

(** [validateTimestamps], lines 117-128; [currentTime] is the value read
    from [Date.now()]. *)
Definition validateTimestamps (currentTime : Z) (timestamps : list Z) : Result unit :=
  if Z.of_nat (List.length timestamps) >? RECURRING_TASK_LIMIT
  then throw TooManyTasks
  else forEach timestamps (checkTimestamp currentTime).

(** [validateTransferParams], lines 136-139. *)
Definition validateTransferParams
    (amount : Z) (sendingAddress receivingAddress : string) : Result unit :=
  if amount <? LOWEST_TRANSFERRABLE_AMOUNT then throw AmountTooLow
  else if JS.strict_eq sendingAddress receivingAddress
  then throw SelfTransferNotAllowed
  else returns tt.

End Validation.

(** ** Values exchanged with the node *)

Definition HexString : Type := string.

(** A call of the [automationTime] pallet, as assembled by
    [polkadotApi.tx['automationTime'][...]]; the timestamps are those
    returned by [convertToSeconds]. *)
Inductive Extrinsic : Type :=
| scheduleNotifyTask (providedID : Z) (secondTimestamps : list Q) (message : string)
| scheduleNativeTransferTask (providedID : string) (secondTimestamps : list Q)
                             (receivingAddress : string) (amount : Z)
| cancelTask (providedID : Z).

(** The index pair of [result.dispatchError.asModule]. *)
Record ModuleError : Type := { pallet_index : Z; error_index : Z }.

(** [result.dispatchError] when it is not nil: [isModule] with [asModule],
    or any other error with its [toString()]. *)
Inductive DispatchError : Type :=
| ModuleDispatch (asModule : ModuleError)
| OtherDispatch (rendered : string).

(** The fields of [ISubmittableResult] that the class reads. *)
Record ISubmittableResult : Type := {
  status_type : string;
  status_isFinalized : bool;
  dispatchError : option DispatchError
}.

(** The value of [api.registry.findMetaError]. *)
Record RegistryError : Type := {
  docs : list string;
  name : string;
  section : string
}.

(** The object returned by [polkadotApi.tx(extrinsicHex)]: [hash] is
    [txObject.hash.toString()]; [send] is the outcome of the awaited
    [txObject.send(callback)], either the rejection of the submission or
    the stream of status events that the node has for it. *)
Record Submittable : Type := {
  hash : string;
  send : Result (list ISubmittableResult)
}.

(** Modelled from the spec: the subscription behind [txObject.send]
    belongs to the client library of the node, which is not among the
    sources.  Section 4.5: the subscription is torn down immediately after
    the callback is invoked for the current event, an explicit unsubscribe
    call right after registering, so that only the first status event of
    the stream is observed before the stream is cut. *)
Definition observedBeforeUnsubscribe (stream : list ISubmittableResult)
  : list ISubmittableResult :=
  firstn 1 stream.

(** What the class asks of the outside world, in the order it asks. *)
Inductive Interaction : Type :=
| Connect
| Assemble (extrinsic : Extrinsic)
| Sign (address : string) (extrinsic : Extrinsic)
| Submit (extrinsicHex : HexString)
| Unsubscribe.

Section Client.

(** The signer injected by the caller. *)
Variable Signer : Type.

(** The part of [ApiPromise] that the class uses.  [signAsync] stands for
    [extrinsic.signAsync(address, { signer, nonce: -1 })] followed by
    [toHex()], and [tx] for [polkadotApi.tx(extrinsicHex)], which throws
    on bytes that it cannot decode. *)
Record ApiPromise : Type := {
  findMetaError : ModuleError -> RegistryError;
  signAsync : Extrinsic -> string -> Signer -> Result HexString;
  tx : HexString -> Result Submittable
}.

(** The state of a [Scheduler] and of its surroundings: [this.api] (nil
    until the first connection), the clock read by [Date.now()], the
    lines written by [console.log] and the interactions so far. *)
Record State : Type := {
  api : option ApiPromise;
  clock : Z;
  console : list string;
  calls : list Interaction
}.

(** Methods that have effects. *)
Definition M (A : Type) : Type := State -> Result A * State.

Definition ret {A : Type} (a : A) : M A := fun st => (inr a, st).

Definition bind {A B : Type} (c : M A) (k : A -> M B) : M B :=
  fun st =>
    match c st with
    | (inl e, st') => (inl e, st')
    | (inr a, st') => k a st'
    end.

Definition lift {A : Type} (r : Result A) : M A := fun st => (r, st).

Definition Date_now : M Z := fun st => (inr (clock st), st).

(** The state after more lines were written to the console. *)
Definition add_lines (st : State) (lines : list string) : State :=
  {| api := api st; clock := clock st;
     console := console st ++ lines;
     calls := calls st |}.

(** The state after more interactions took place. *)
Definition add_calls (st : State) (interactions : list Interaction) : State :=
  {| api := api st; clock := clock st;
     console := console st;
     calls := calls st ++ interactions |}.

Definition console_log (line : string) : M unit :=
  fun st => (inr tt, add_lines st [line]).

Definition interact (i : Interaction) : M unit :=
  fun st => (inr tt, add_calls st [i]).

Definition set_api (a : ApiPromise) : M unit :=
  fun st => (inr tt, {| api := Some a; clock := clock st;
                        console := console st;
                        calls := calls st |}).

Definition get_api : M (option ApiPromise) := fun st => (inr (api st), st).

Notation "x <- c ;; k" := (bind c (fun x => k))
  (at level 61, c at next level, right associativity).
Notation "c ;;; k" := (bind c (fun _ => k))
  (at level 61, right associativity).

(** The outcome of [ApiPromise.create] on [this.wsProvider]. *)
Variable ApiPromise_create : Result ApiPromise.

(** [JSON.stringify] on the object [{ docs, name, section }]. *)
Variable JSON_stringify : RegistryError -> string.

Variable schedulingTimeLimit : Z.
Variable LOWEST_TRANSFERRABLE_AMOUNT : Z.

(** [getAPIClient], lines 30-55. *)
Definition getAPIClient : M ApiPromise :=
  cached <- get_api ;;
  match cached with
  | None =>
      interact Connect ;;;
      created <- lift ApiPromise_create ;;
      set_api created ;;;
      ret created
  | Some a => ret a
  end.

(** [defaultErrorHandler], lines 65-82. *)
Definition defaultErrorHandler (result : ISubmittableResult) : M unit :=
  console_log ("Tx status: " ++ status_type result)%string ;;;
  if status_isFinalized result then
    match dispatchError result with
    | Some (ModuleDispatch asModule) =>
        a <- getAPIClient ;;
        let metaError := findMetaError a asModule in
        let dispatchErrorMessage :=
          JSON_stringify {| docs := docs metaError; name := name metaError;
                            section := section metaError |} in
        let errMsg :=
          ("Transaction finalized with error by blockchain " ++ dispatchErrorMessage)%string in
        console_log errMsg
    | Some (OtherDispatch rendered) =>
        let errMsg :=
          ("Transaction finalized with error by blockchain " ++ rendered)%string in
        console_log errMsg
    | None => ret tt
    end
  else ret tt.

(** [this.validateTimestamps(timestamps)] as a step of a method: the
    clock is read, then the pure check runs. *)
Definition validateTimestampsM (timestamps : list Z) : M unit :=
  currentTime <- Date_now ;;
  lift (validateTimestamps schedulingTimeLimit currentTime timestamps).

(** The callback given to [txObject.send], lines 154-162. *)
Definition sendCallback (handleDispatch : option (ISubmittableResult -> M unit))
    (result : ISubmittableResult) : M unit :=
  match handleDispatch with
  | None =>
      console_log "Using default error handler" ;;;
      defaultErrorHandler result
  | Some handler =>
      console_log "Using custom error handler" ;;;
      handler result
  end.

(** The subscription runs the callback on each status event.  The
    callback is an [async] function whose promise nobody awaits: what it
    did stays, what it threw is lost. *)
Fixpoint deliver (events : list ISubmittableResult)
    (callback : ISubmittableResult -> M unit) : M unit :=
  match events with
  | [] => ret tt
  | result :: rest =>
      fun st => deliver rest callback (snd (callback result st))
  end.

(** [sendExtrinsic], lines 147-165.  The decoding on line 153 and the
    awaited submission on line 154 can throw; [unsub()] on line 163 is
    reached once the submission was accepted. *)
Definition sendExtrinsic (extrinsicHex : HexString)
    (handleDispatch : option (ISubmittableResult -> M unit)) : M string :=
  polkadotApi <- getAPIClient ;;
  txObject <- lift (tx polkadotApi extrinsicHex) ;;
  interact (Submit extrinsicHex) ;;;
  stream <- lift (send txObject) ;;
  deliver (observedBeforeUnsubscribe stream) (sendCallback handleDispatch) ;;;
  interact Unsubscribe ;;;
  ret (hash txObject).

(** [buildScheduleNotifyExtrinsic], lines 179-195. *)
Definition buildScheduleNotifyExtrinsic (address : string) (providedID : Z)
    (timestamps : list Z) (message : string) (signer : Signer) : M HexString :=
  validateTimestampsM timestamps ;;;
  let secondTimestamps := convertToSeconds timestamps in
  polkadotApi <- getAPIClient ;;
  let extrinsic := scheduleNotifyTask providedID secondTimestamps message in
  interact (Assemble extrinsic) ;;;
  interact (Sign address extrinsic) ;;;
  lift (signAsync polkadotApi extrinsic address signer).

(** [buildScheduleNativeTransferExtrinsic], lines 209-232. *)
Definition buildScheduleNativeTransferExtrinsic (address : string)
    (providedID : string) (timestamps : list Z) (receivingAddress : string)
    (amount : Z) (signer : Signer) : M HexString :=
  validateTimestampsM timestamps ;;;
  lift (validateTransferParams LOWEST_TRANSFERRABLE_AMOUNT
          amount address receivingAddress) ;;;
  let secondTimestamps := convertToSeconds timestamps in
  polkadotApi <- getAPIClient ;;
  let extrinsic :=
    scheduleNativeTransferTask providedID secondTimestamps receivingAddress amount in
  interact (Assemble extrinsic) ;;;
  interact (Sign address extrinsic) ;;;
  lift (signAsync polkadotApi extrinsic address signer).

(** [buildCancelTaskExtrinsic], lines 240-248. *)
Definition buildCancelTaskExtrinsic (address : string) (providedID : Z)
    (signer : Signer) : M HexString :=
  polkadotApi <- getAPIClient ;;
  let extrinsic := cancelTask providedID in
  interact (Assemble extrinsic) ;;;
  interact (Sign address extrinsic) ;;;
  lift (signAsync polkadotApi extrinsic address signer).

End Client.

Arguments findMetaError {Signer}.
Arguments signAsync {Signer}.
Arguments tx {Signer}.
Arguments api {Signer}.
Arguments clock {Signer}.
Arguments console {Signer}.
Arguments calls {Signer}.
Arguments add_lines {Signer}.
Arguments add_calls {Signer}.
Arguments getAPIClient {Signer}.
Arguments defaultErrorHandler {Signer}.
Arguments validateTimestampsM {Signer}.
Arguments sendCallback {Signer}.
Arguments deliver {Signer}.
Arguments sendExtrinsic {Signer}.
Arguments buildScheduleNotifyExtrinsic {Signer}.
Arguments buildScheduleNativeTransferExtrinsic {Signer}.
Arguments buildCancelTaskExtrinsic {Signer}.

(** ** A sample client *)

(** The status events of the sample node for a submission, the last one
    finalized with a module error. *)
Definition sampleStream : list ISubmittableResult :=
  [ {| status_type := "Ready"; status_isFinalized := false; dispatchError := None |};
    {| status_type := "InBlock"; status_isFinalized := false; dispatchError := None |};
    {| status_type := "Finalized"; status_isFinalized := true;
       dispatchError := Some (ModuleDispatch {| pallet_index := 60; error_index := 3 |}) |} ].

(** A node that signs everything with the same bytes, knows one module
    error, decodes the strings that start with 0x and refuses the
    submission of the empty extrinsic 0x. *)
Definition sampleApi : ApiPromise unit := {|
  findMetaError := fun _ =>
    {| docs := ["Insufficient balance"%string];
       name := "InsufficientBalance";
       section := "automationTime" |};
  signAsync := fun _ _ _ => returns "0x2a"%string;
  tx := fun extrinsicHex =>
    if String.prefix "0x" extrinsicHex
    then returns {| hash := ("hash:" ++ extrinsicHex)%string;
                    send := if String.eqb extrinsicHex "0x"
                            then throw (MkError "1010: Invalid Transaction")
                            else returns sampleStream |}
    else throw (MkError "createType(Call): not a hex string")
|}.

(** A rendering of [{ docs, name, section }] that keeps the two names. *)
Definition sampleStringify (e : RegistryError) : string :=
  (section e ++ "." ++ name e)%string.

(** A scheduler that has not connected yet, at 1_700_000_000_000 ms. *)
Definition freshState : State unit :=
  {| api := None; clock := 1700000000000; console := []; calls := [] |}.

(** The same scheduler once connected. *)
Definition connectedState : State unit :=
  {| api := Some sampleApi; clock := 1700000000000; console := [];
     calls := [Connect] |}.

(** ** The next available hour as an integer *)

(** The value of [nextAvailableHour] in seconds: one hour past the start
    of the hour that holds [currentTime] ([÷] truncates like [%]). *)
Definition nextHour (currentTime : Z) : Z :=
  3600 * (currentTime ÷ 3600000 + 1).

(** A timestamp passes the callback of [validateTimestamps]. *)
Definition passes (schedulingTimeLimit currentTime timestamp : Z) : Prop :=
  checkTimestamp schedulingTimeLimit currentTime timestamp = returns tt.

(** * Properties *)

(** ** Queries and the lines of the default handler *)

Section Queries.

Variable Signer : Type.

(** The outcome of [ApiPromise.create] on [this.wsProvider]. *)
Variable ApiPromise_create : Result (ApiPromise Signer).

(** [(polkadotApi.rpc as any).automationTime.generateTaskId(address,
    providedID)] followed by [toString()]. *)
Variable generateTaskId : ApiPromise Signer -> string -> string -> Result string.

(** [getTaskID], lines 104-109. *)
Definition getTaskID (address providedID : string) : M Signer string :=
  bind Signer (getAPIClient ApiPromise_create) (fun polkadotApi =>
  lift Signer (generateTaskId polkadotApi address providedID)).

(** The lines that lines 66-81 write for one status event when the
    client at hand is [a]: the status line, then the line of the dispatch
    error of a finalized result. *)
Definition handlerLines (JSON_stringify : RegistryError -> string)
    (a : ApiPromise Signer) (result : ISubmittableResult) : list string :=
  ("Tx status: " ++ status_type result)%string ::
  (if status_isFinalized result then
     match dispatchError result with
     | Some (ModuleDispatch asModule) =>
         [("Transaction finalized with error by blockchain " ++
           JSON_stringify {| docs := docs (findMetaError a asModule);
                             name := name (findMetaError a asModule);
                             section := section (findMetaError a asModule) |})%string]
     | Some (OtherDispatch rendered) =>
         [("Transaction finalized with error by blockchain " ++ rendered)%string]
     | None => []
     end
   else []).

End Queries.

Arguments getTaskID {Signer}.
Arguments handlerLines {Signer}.

(** The timestamp is within the window that [validateTimestamps] accepts
    at the clock [currentTime]: on an hour boundary, not before the next
    available hour, not after clock plus limit (the last in the unit of
    the clock). *)
Definition inWindow (schedulingTimeLimit currentTime timestamp : Z) : Prop :=
  nextHour currentTime <= timestamp /\
  Z.rem timestamp 3600 = 0 /\
  timestamp <= currentTime + schedulingTimeLimit.

(** Running [method] from [st] keeps the client [a] and opens no new
    connection. *)
Definition reusesConnection {Signer A : Type} (method : M Signer A)
    (a : ApiPromise Signer) (st : State Signer) : Prop :=
  api (snd (method st)) = Some a /\
  exists interactions,
    calls (snd (method st)) = calls st ++ interactions /\
    ~ In Connect interactions.

(** A node that answers the query of the task id with both arguments. *)
Definition sampleTaskId (a : ApiPromise unit) (address providedID : string)
  : Result string :=
  returns (address ++ "/" ++ providedID)%string.

(** The error of a node that cannot be reached. *)
Definition offline : Error := MkError "offline".

(** A finalized result with a module error. *)
Definition moduleFailure : ISubmittableResult :=
  {| status_type := "Finalized"; status_isFinalized := true;
     dispatchError := Some (ModuleDispatch {| pallet_index := 60; error_index := 3 |}) |}.

Example TooManyTasks_message :
  message TooManyTasks = "Recurring Task length cannot exceed 24"%string.
Proof. reflexivity. Qed.

(** ** Arithmetic of JavaScript numbers *)

Lemma Qred_inject_Z (k : Z) : Qred (inject_Z k) = inject_Z k.
Proof.
  unfold Qred, inject_Z; simpl.
  pose proof (Z.ggcd_gcd k 1) as Hg.
  pose proof (Z.ggcd_correct_divisors k 1) as Hd.
  destruct (Z.ggcd k 1) as [g [aa bb]]; simpl in *.
  rewrite Z.gcd_1_r in Hg; subst g.
  destruct Hd as [Hk Hb].
  replace aa with k by lia. replace bb with 1 by lia. reflexivity.
Qed.

Lemma round_half_even_exact (x d : Z) :
  0 < d -> JS.round_half_even (d * x) d = x.
Proof.
  intros Hd. unfold JS.round_half_even.
  rewrite (Z.mul_comm d x), Z.div_mul, Z.mod_mul by lia.
  simpl. destruct (Z.ltb_spec 0 d); [reflexivity | lia].
Qed.

(** The rounded integer is within one half of the quotient. *)
Lemma round_half_even_near (n d : Z) :
  0 < d -> - d <= 2 * (d * JS.round_half_even n d - n) <= d.
Proof.
  intros Hd. unfold JS.round_half_even.
  pose proof (Z.div_mod n d ltac:(lia)) as Hdm.
  pose proof (Z.mod_pos_bound n d Hd) as Hb.
  destruct (Z.ltb_spec (2 * (n mod d)) d); [lia |].
  destruct (Z.ltb_spec d (2 * (n mod d))); [lia |].
  destruct (Z.even (n / d)); lia.
Qed.

Lemma exponent_le (a d : Z) : JS.exponent a d <= Z.log2 a - Z.log2 d.
Proof.
  unfold JS.exponent.
  destruct (if 0 <=? Z.log2 a - Z.log2 d
            then d * 2 ^ (Z.log2 a - Z.log2 d) <=? a
            else d <=? a * 2 ^ (- (Z.log2 a - Z.log2 d))); lia.
Qed.

Lemma log2_safe (a : Z) : Z.abs a < 2 ^ 53 -> Z.log2 (Z.abs a) <= 52.
Proof.
  intros Ha. destruct (Z.eq_dec (Z.abs a) 0) as [H0 | H0].
  - rewrite H0. simpl. lia.
  - assert (Z.log2 (Z.abs a) < 53); [| lia].
    apply Z.log2_lt_pow2; lia.
Qed.

Lemma Qred_fraction (k p : Z) :
  0 < p -> Qred (Qmake (k * p) (Z.to_pos p)) = inject_Z k.
Proof.
  intros Hp. rewrite <- (Qred_inject_Z k). apply Qred_complete.
  unfold Qeq, inject_Z; simpl. rewrite Z2Pos.id by lia. lia.
Qed.

(** A quotient that is an integer is not changed by the rounding. *)
Lemma binary64_exact (k d : Z) :
  0 < d -> Z.abs (d * k) < 2 ^ 53 -> JS.binary64 (d * k) d = inject_Z k.
Proof.
  intros Hd Hsafe. unfold JS.binary64.
  destruct (Z.eqb_spec (d * k) 0) as [H0 | H0].
  - assert (k = 0) by nia. subst k. reflexivity.
  - pose proof (exponent_le (Z.abs (d * k)) d) as He.
    pose proof (log2_safe (d * k) Hsafe) as Hl.
    pose proof (Z.log2_nonneg d) as Hld.
    destruct (Z.leb_spec 0 (52 - JS.exponent (Z.abs (d * k)) d)); [| lia].
    rewrite <- Z.mul_assoc, round_half_even_exact by exact Hd.
    apply Qred_fraction. apply Z.pow_pos_nonneg; lia.
Qed.

Lemma JS_div_exact (k d : Z) : 0 < d -> JS.div (d * k) d = inject_Z k.
Proof.
  intros Hd. unfold JS.div.
  destruct (JS.isSafeInteger (d * k) && JS.isSafeInteger d && negb (d =? 0)) eqn:Hguard.
  - apply andb_prop in Hguard. destruct Hguard as [Hguard _].
    apply andb_prop in Hguard. destruct Hguard as [Hsafe _].
    unfold JS.isSafeInteger in Hsafe. apply Z.ltb_lt in Hsafe.
    destruct (Z.ltb_spec 0 d); [| lia].
    apply binary64_exact; assumption.
  - rewrite <- (Qred_inject_Z k). apply Qred_complete.
    rewrite inject_Z_mult. field.
    intros H. unfold Qeq in H; simpl in H. lia.
Qed.

Lemma JS_lt_inject_Z (a b : Z) : JS.lt a (inject_Z b) = (a <? b).
Proof.
  unfold JS.lt, Qle_bool, inject_Z; simpl.
  rewrite !Z.mul_1_r. rewrite Z.ltb_antisym. reflexivity.
Qed.

Lemma nextAvailableHour_nextHour (currentTime : Z) :
  nextAvailableHour currentTime = inject_Z (nextHour currentTime).
Proof.
  unfold nextAvailableHour, nextHour.
  change (SEC_IN_MIN * MIN_IN_HOUR * MS_IN_SEC) with 3600000.
  pose proof (Z.quot_rem' currentTime 3600000) as Hqr.
  replace (currentTime - Z.rem currentTime 3600000 + 3600000)
    with (1000 * (3600 * (currentTime ÷ 3600000 + 1))) by lia.
  apply JS_div_exact. lia.
Qed.

(** The callback of [validateTimestamps] with its comparisons in [Z]. *)
Lemma checkTimestamp_Z (schedulingTimeLimit currentTime timestamp : Z) :
  checkTimestamp schedulingTimeLimit currentTime timestamp =
  if timestamp <? nextHour currentTime then throw TimestampInPast
  else if negb (Z.rem timestamp 3600 =? 0) then throw NotHourAligned
  else if timestamp >? currentTime + schedulingTimeLimit then throw TooFarInFuture
  else returns tt.
Proof.
  unfold checkTimestamp.
  rewrite nextAvailableHour_nextHour, JS_lt_inject_Z. reflexivity.
Qed.

(** For a clock at or after the epoch, [nextHour] is the first hour
    boundary strictly after the clock. *)
Lemma nextHour_strictly_after (currentTime : Z) :
  0 <= currentTime ->
  Z.rem (nextHour currentTime) 3600 = 0 /\
  currentTime < 1000 * nextHour currentTime /\
  forall h, Z.rem h 3600 = 0 -> currentTime < 1000 * h -> nextHour currentTime <= h.
Proof.
  intros Hnow. unfold nextHour.
  rewrite Z.quot_div_nonneg by lia.
  pose proof (Z.div_mod currentTime 3600000 ltac:(lia)) as Hdm.
  pose proof (Z.mod_pos_bound currentTime 3600000 ltac:(lia)) as Hb.
  split; [| split].
  - rewrite Z.mul_comm. apply Z.rem_mul. lia.
  - lia.
  - intros h Hh Hlt.
    apply Z.rem_mod_eq_0 in Hh; [| lia].
    apply Z.mod_divide in Hh; [| lia].
    destruct Hh as [q Hq]. subst h.
    assert (currentTime / 3600000 < q) by nia.
    lia.
Qed.

(** ** Iteration *)

Lemma forEach_returns {A : Type} (f : A -> Result unit) (xs : list A) :
  forEach xs f = returns tt <-> Forall (fun x => f x = returns tt) xs.
Proof.
  unfold throw, returns.
  induction xs as [| x rest IH]; simpl; unfold throw, returns.
  - split; [constructor | reflexivity].
  - destruct (f x) as [e | []] eqn:Hfx.
    + split; [discriminate |]. intros H. inversion H; subst. congruence.
    + rewrite IH. split.
      * intros H. constructor; [exact Hfx | exact H].
      * intros H. inversion H; assumption.
Qed.

Lemma forEach_throws {A : Type} (f : A -> Result unit) (xs : list A) (e : Error) :
  forEach xs f = throw e <->
  exists pre x post,
    xs = pre ++ x :: post /\ Forall (fun y => f y = returns tt) pre /\ f x = throw e.
Proof.
  unfold throw, returns.
  induction xs as [| x rest IH]; simpl; unfold throw, returns.
  - split; [discriminate |].
    intros (pre & y & post & Heq & _). destruct pre; discriminate.
  - destruct (f x) as [e' | []] eqn:Hfx.
    + split.
      * intros H. exists [], x, rest. repeat split; [constructor |].
        rewrite Hfx. exact H.
      * intros (pre & y & post & Heq & Hpre & Hy).
        destruct pre as [| p pre]; simpl in Heq; inversion Heq; subst.
        -- rewrite Hfx in Hy. exact Hy.
        -- inversion Hpre; subst. congruence.
    + rewrite IH. split.
      * intros (pre & y & post & Heq & Hpre & Hy).
        exists (x :: pre), y, post. subst rest.
        repeat split; [constructor; assumption | assumption].
      * intros (pre & y & post & Heq & Hpre & Hy).
        destruct pre as [| p pre]; simpl in Heq; inversion Heq; subst.
        -- congruence.
        -- inversion Hpre; subst. exists pre, y, post. auto.
Qed.

(** Within the limit, [validateTimestamps] is the iteration. *)
Lemma validateTimestamps_admissible (lim now : Z) (ts : list Z) :
  Z.of_nat (List.length ts) <= RECURRING_TASK_LIMIT ->
  validateTimestamps lim now ts = forEach ts (checkTimestamp lim now).
Proof.
  intros Hlen. unfold validateTimestamps.
  destruct (Z.gtb_spec (Z.of_nat (List.length ts)) RECURRING_TASK_LIMIT); [lia | reflexivity].
Qed.

Lemma validateTimestamps_too_many (lim now : Z) (ts : list Z) :
  RECURRING_TASK_LIMIT < Z.of_nat (List.length ts) ->
  validateTimestamps lim now ts = throw TooManyTasks.
Proof.
  intros Hlen. unfold validateTimestamps.
  destruct (Z.gtb_spec (Z.of_nat (List.length ts)) RECURRING_TASK_LIMIT); [reflexivity | lia].
Qed.

(** Two outcomes that differ as values are told apart by evaluation. *)
Ltac differ :=
  let H := fresh "H" in
  intros H; vm_compute in H; discriminate H.

(** Which rule a timestamp breaks decides the error of the callback. *)
Lemma checkTimestamp_past (lim now t : Z) :
  checkTimestamp lim now t = throw TimestampInPast <-> t < nextHour now.
Proof.
  rewrite checkTimestamp_Z.
  destruct (Z.ltb_spec t (nextHour now)); [tauto |].
  destruct (negb (Z.rem t 3600 =? 0)); [split; [differ | lia] |].
  destruct (t >? now + lim); split; (differ || lia).
Qed.

Lemma checkTimestamp_unaligned (lim now t : Z) :
  checkTimestamp lim now t = throw NotHourAligned <->
  nextHour now <= t /\ Z.rem t 3600 <> 0.
Proof.
  rewrite checkTimestamp_Z.
  destruct (Z.ltb_spec t (nextHour now)); [split; [differ | lia] |].
  destruct (Z.eqb_spec (Z.rem t 3600) 0); simpl.
  - destruct (t >? now + lim); split; (differ || tauto).
  - tauto.
Qed.

Lemma checkTimestamp_too_far (lim now t : Z) :
  checkTimestamp lim now t = throw TooFarInFuture <->
  nextHour now <= t /\ Z.rem t 3600 = 0 /\ now + lim < t.
Proof.
  rewrite checkTimestamp_Z.
  destruct (Z.ltb_spec t (nextHour now)); [split; [differ | lia] |].
  destruct (Z.eqb_spec (Z.rem t 3600) 0); simpl.
  - destruct (Z.gtb_spec t (now + lim)); split; (differ || tauto || lia).
  - split; [differ | tauto].
Qed.

Lemma checkTimestamp_passes (lim now t : Z) :
  passes lim now t <->
  nextHour now <= t /\ Z.rem t 3600 = 0 /\ t <= now + lim.
Proof.
  unfold passes. rewrite checkTimestamp_Z.
  destruct (Z.ltb_spec t (nextHour now)); [split; [differ | lia] |].
  destruct (Z.eqb_spec (Z.rem t 3600) 0); simpl.
  - destruct (Z.gtb_spec t (now + lim)); split; (differ || tauto || lia).
  - split; [differ | tauto].
Qed.

(** ** Conversion to seconds *)

(** The exponent is the one of the quotient. *)
Lemma exponent_spec (a d : Z) :
  0 < d -> d <= a ->
  0 <= JS.exponent a d /\
  d * 2 ^ JS.exponent a d <= a < d * 2 ^ (JS.exponent a d + 1).
Proof.
  intros Hd Hle. unfold JS.exponent.
  pose proof (Z.log2_spec a ltac:(lia)) as Ha.
  pose proof (Z.log2_spec d Hd) as Hld.
  pose proof (Z.log2_le_mono d a Hle) as Hmono.
  pose proof (Z.log2_nonneg d) as Hnn.
  set (la := Z.log2 a) in *. set (ld := Z.log2 d) in *.
  assert (Hsplit : 2 ^ la = 2 ^ ld * 2 ^ (la - ld)).
  { rewrite <- Z.pow_add_r by lia. f_equal. lia. }
  assert (Hpos : 0 < 2 ^ (la - ld)) by (apply Z.pow_pos_nonneg; lia).
  destruct (Z.leb_spec 0 (la - ld)); [| lia].
  destruct (Z.leb_spec (d * 2 ^ (la - ld)) a) as [Htest | Htest].
  - split; [lia |]. split; [exact Htest |].
    rewrite Z.pow_add_r by lia. change (2 ^ 1) with 2.
    assert (2 ^ (la + 1) = 2 ^ la * 2) by (rewrite Z.pow_add_r by lia; reflexivity).
    nia.
  - assert (Hne : la - ld <> 0).
    { intros H0. rewrite H0 in Htest. change (2 ^ 0) with 1 in Htest. lia. }
    assert (Hhalf : 2 ^ (la - ld) = 2 ^ (la - ld - 1) * 2).
    { replace (la - ld) with ((la - ld - 1) + 1) at 1 by lia.
      rewrite Z.pow_add_r by lia. reflexivity. }
    replace (la - ld - 1 + 1) with (la - ld) by lia.
    split; [lia |]. split; [| lia].
    assert (0 < 2 ^ (la - ld - 1)) by (apply Z.pow_pos_nonneg; lia).
    assert (Hd2 : 2 ^ (ld + 1) = 2 ^ ld * 2)
      by (rewrite Z.pow_add_r by lia; reflexivity).
    unfold Z.succ in Hld. rewrite Hd2 in Hld. rewrite Hhalf in Hsplit.
    set (x := 2 ^ (la - ld - 1)) in *. set (y := 2 ^ ld) in *.
    assert (d * x <= y * 2 * x - x) by nia.
    nia.
Qed.

(** The quotient by 1000 of a millisecond value that is a safe integer is
    a double: it has a significand of 53 bits, it is within half a unit
    of the last of them of the exact quotient, and this unit is at most
    1/512. *)
Lemma div_1000_rounded (t : Z) :
  100000000000 < t -> t < 2 ^ 53 ->
  exists m shift,
    9 <= shift /\
    JS.div t 1000 = Qred (Qmake m (Z.to_pos (2 ^ shift))) /\
    2 ^ 52 <= m <= 2 ^ 53 /\
    - 1000 <= 2 * (1000 * m - t * 2 ^ shift) <= 1000.
Proof.
  intros Hms Hsafe. unfold JS.div.
  assert (Hguard : JS.isSafeInteger t && JS.isSafeInteger 1000 && negb (1000 =? 0) = true).
  { unfold JS.isSafeInteger. rewrite Z.abs_eq by lia.
    destruct (Z.ltb_spec t (2 ^ 53)); [reflexivity | lia]. }
  rewrite Hguard. change (0 <? 1000) with true. cbv iota.
  unfold JS.binary64.
  destruct (Z.eqb_spec t 0) as [H0 | H0]; [lia |].
  rewrite Z.abs_eq by lia.
  pose proof (exponent_le t 1000) as He.
  assert (Hl : Z.log2 t <= 52).
  { pose proof (log2_safe t) as Hls. rewrite Z.abs_eq in Hls by lia. apply Hls. lia. }
  change (Z.log2 1000) with 9 in He.
  destruct (exponent_spec t 1000 ltac:(lia) ltac:(lia)) as (He0 & Hlow & Hhigh).
  set (e := JS.exponent t 1000) in *.
  destruct (Z.leb_spec 0 (52 - e)); [| lia].
  pose proof (round_half_even_near (t * 2 ^ (52 - e)) 1000 ltac:(lia)) as Hnear.
  exists (JS.round_half_even (t * 2 ^ (52 - e)) 1000), (52 - e).
  split; [lia |]. split; [reflexivity |]. split; [| exact Hnear].
  assert (Hpow : 2 ^ 52 = 2 ^ e * 2 ^ (52 - e)).
  { rewrite <- Z.pow_add_r by lia. f_equal. lia. }
  assert (Hpow' : 2 ^ 53 = 2 ^ (e + 1) * 2 ^ (52 - e)).
  { rewrite <- Z.pow_add_r by lia. f_equal. lia. }
  assert (Hp : 0 < 2 ^ (52 - e)) by (apply Z.pow_pos_nonneg; lia).
  rewrite Hpow, Hpow'.
  set (p := 2 ^ (52 - e)) in *. set (m := JS.round_half_even (t * p) 1000) in *.
  split; nia.
Qed.

Lemma pow2_ge_512 (shift : Z) : 9 <= shift -> 512 <= 2 ^ shift.
Proof.
  intros Hs. change 512 with (2 ^ 9). apply Z.pow_le_mono_r; lia.
Qed.

(** C8: [convertToSeconds] treats each element on its own: a value above
    100_000_000_000 is divided by 1000 as JavaScript divides, any other
    value is returned as it is.  The quotient is the double nearest to
    the exact one: it is the exact one when the value is a multiple of
    1000, and for a safe integer it has a significand [m] of 53 bits,
    lies within half a unit of the last of them of the exact quotient,
    and so within 1/1024 of it.  The result
    has the length and the order of the input, the conversion of a
    concatenation is the concatenation of the conversions, and the two
    sample inputs 1_700_000_000_000 (milliseconds) and 1_700_000_000
    (seconds) both give 1_700_000_000. *)
Theorem C8_convertToSeconds_elementwise (timestamps : list Z) :
  List.length (convertToSeconds timestamps) = List.length timestamps /\
  (forall i t, nth_error timestamps i = Some t ->
     (100000000000 < t ->
        nth_error (convertToSeconds timestamps) i = Some (JS.div t 1000) /\
        (forall s, t = 1000 * s -> JS.div t 1000 = inject_Z s) /\
        (t < 2 ^ 53 ->
         (exists m shift,
            0 <= shift /\
            JS.div t 1000 = Qred (Qmake m (Z.to_pos (2 ^ shift))) /\
            2 ^ 52 <= m <= 2 ^ 53 /\
            - 1000 <= 2 * (1000 * m - t * 2 ^ shift) <= 1000) /\
         (Qabs (JS.div t 1000 - inject_Z t / inject_Z 1000) <= 1 # 1024)%Q)) /\
     (t <= 100000000000 ->
        nth_error (convertToSeconds timestamps) i = Some (inject_Z t))) /\
  (forall more, convertToSeconds (timestamps ++ more) =
                convertToSeconds timestamps ++ convertToSeconds more) /\
  convertToSeconds [1700000000000] = [inject_Z 1700000000] /\
  convertToSeconds [1700000000] = [inject_Z 1700000000].
Proof.
  unfold convertToSeconds.
  split; [apply length_map |].
  split; [| split; [intros more; apply map_app | split; reflexivity]].
  intros i t Hi. rewrite nth_error_map, Hi. unfold option_map.
  change MS_IN_SEC with 1000. split.
  - intros Hms. destruct (Z.gtb_spec t 100000000000); [| lia].
    split; [reflexivity |]. split.
    + intros s ->. apply JS_div_exact. lia.
    + intros Hsafe.
      destruct (div_1000_rounded t Hms Hsafe)
        as (m & shift & Hshift & Hq & Hm & Hnear).
      split; [exists m, shift; repeat split; (assumption || lia) |].
      rewrite Hq. pose proof (pow2_ge_512 shift Hshift) as Hp.
      rewrite Qred_correct. apply Qabs_Qle_condition.
      unfold Qle, Qminus, Qplus, Qopp, Qdiv, Qmult, Qinv, inject_Z; simpl.
      rewrite !Pos2Z.inj_mul, !Z2Pos.id by lia.
      split; nia.
  - intros Hs. destruct (Z.gtb_spec t 100000000000); [lia | reflexivity].
Qed.

Lemma C8_convertToSeconds_witness :
  nth_error (convertToSeconds [1700000000; 1700000000000; 100000000001]) 1
  = Some (inject_Z 1700000000) /\
  (Qabs (JS.div 100000000001 1000 - inject_Z 100000000001 / inject_Z 1000)
   <= 1 # 1024)%Q /\
  nth_error (convertToSeconds [1700000000; 1700000000000; 100000000001]) 0
  = Some (inject_Z 1700000000).
Proof.
  pose proof (proj1 (proj2 (C8_convertToSeconds_elementwise
                              [1700000000; 1700000000000; 100000000001]))) as Helt.
  split; [| split].
  - destruct (proj1 (Helt 1%nat 1700000000000 eq_refl) ltac:(lia)) as (Hnth & Hexact & _).
    rewrite (Hexact 1700000000 eq_refl) in Hnth. exact Hnth.
  - destruct (proj1 (Helt 2%nat 100000000001 eq_refl) ltac:(lia)) as (_ & _ & Hnear).
    apply (proj2 (Hnear ltac:(vm_compute; reflexivity))).
  - apply (proj2 (Helt 0%nat 1700000000 eq_refl)). lia.
Defined.

(** The quotient of 100_000_000_001 by 1000 is the double
    6710886400067109 / 2^26, as in the reference implementation of the
    library, and not the exact quotient. *)
Example div_rounds :
  JS.div 100000000001 1000 = Qred (6710886400067109 # 67108864) /\
  JS.reference_div 100000000001 1000 = Some (JS.div 100000000001 1000) /\
  ~ (JS.div 100000000001 1000 == inject_Z 100000000001 / inject_Z 1000)%Q.
Proof.
  split; [vm_compute; reflexivity |]. split; [vm_compute; reflexivity |].
  intros H. vm_compute in H. discriminate H.
Qed.

(** On further quotients the rounding agrees with the reference
    implementation. *)
Example div_agrees_with_reference :
  forallb (fun ab : Z * Z =>
             match JS.reference_div (fst ab) (snd ab) with
             | Some q => Qeq_bool q (JS.div (fst ab) (snd ab))
             | None => false
             end)
          [(1700000000001, 1000); (1700000002800, 1000); (9007199254740991, 1000);
           (4503599627370497, 1000); (123456789012345, 1000); (1, 3); (2, 3);
           (10, 7); (5, 1000); (9007199254740991, 9007199254740990);
           (1, 9007199254740991); (7, 1099511627777); (3600000, 1000)]
  = true.
Proof. vm_compute. reflexivity. Qed.

(** ** Transfer parameters *)

(** C4, as the code has it: an amount below the minimum always fails with
    the amount-too-low error; equal addresses always fail, with the
    self-transfer error exactly when the amount is not below the minimum
    (the amount is checked first). *)
Theorem C4_validateTransferParams_order
    (minimum amount : Z) (sendingAddress receivingAddress : string) :
  (amount < minimum ->
     validateTransferParams minimum amount sendingAddress receivingAddress
     = throw AmountTooLow) /\
  (sendingAddress = receivingAddress ->
     validateTransferParams minimum amount sendingAddress receivingAddress
     <> returns tt /\
     (validateTransferParams minimum amount sendingAddress receivingAddress
      = throw SelfTransferNotAllowed <-> minimum <= amount)).
Proof.
  unfold validateTransferParams, JS.strict_eq. split.
  - intros Hlow. destruct (Z.ltb_spec amount minimum); [reflexivity | lia].
  - intros ->. rewrite String.eqb_refl.
    destruct (Z.ltb_spec amount minimum); split;
      try differ; split; try differ; intros; (lia || reflexivity).
Qed.

Lemma C4_validateTransferParams_witness :
  validateTransferParams 1000000000 5000000000 "alice" "alice"
  = throw SelfTransferNotAllowed /\
  validateTransferParams 1000000000 999999999 "alice" "bob"
  = throw AmountTooLow.
Proof.
  split.
  - apply (proj2 (proj2 (C4_validateTransferParams_order
                           1000000000 5000000000 "alice" "alice") eq_refl)).
    lia.
  - apply (proj1 (C4_validateTransferParams_order
                    1000000000 999999999 "alice" "bob")).
    lia.
Defined.

(** C4 as stated fails: with equal addresses and an amount below the
    minimum the error is the amount-too-low one, not the self-transfer
    one. *)
Lemma C4_self_transfer_counterexample :
  "alice" = "alice" /\
  validateTransferParams 1000000000 999999999 "alice" "alice"
  = throw AmountTooLow /\
  validateTransferParams 1000000000 999999999 "alice" "alice"
  <> throw SelfTransferNotAllowed.
Proof.
  split; [reflexivity |]. split; [reflexivity | differ].
Qed.

(** ** Timestamps *)

(** Within the limit the outcome is that of the first timestamp that does
    not pass. *)
Lemma validateTimestamps_returns_iff (lim now : Z) (timestamps : list Z) :
  Z.of_nat (List.length timestamps) <= RECURRING_TASK_LIMIT ->
  validateTimestamps lim now timestamps = returns tt <->
  Forall (passes lim now) timestamps.
Proof.
  intros Hlen. rewrite (validateTimestamps_admissible lim now timestamps Hlen).
  apply forEach_returns.
Qed.

Lemma validateTimestamps_throws_iff (lim now : Z) (timestamps : list Z) (e : Error) :
  Z.of_nat (List.length timestamps) <= RECURRING_TASK_LIMIT ->
  validateTimestamps lim now timestamps = throw e <->
  exists pre t post,
    timestamps = pre ++ t :: post /\
    Forall (passes lim now) pre /\
    checkTimestamp lim now t = throw e.
Proof.
  intros Hlen. rewrite (validateTimestamps_admissible lim now timestamps Hlen).
  apply forEach_throws.
Qed.

(** C5: the length is checked first: more than 24 entries fail with the
    too-many-tasks error whatever the values are.  Otherwise the timestamps
    are checked in input order: the call returns exactly when every
    timestamp passes, and it throws [e] exactly when the first timestamp
    that does not pass throws [e]; one error is reported, none is
    collected. *)
Theorem C5_cardinality_then_first_violation (lim now : Z) (timestamps : list Z) :
  (RECURRING_TASK_LIMIT < Z.of_nat (List.length timestamps) ->
     validateTimestamps lim now timestamps = throw TooManyTasks) /\
  (Z.of_nat (List.length timestamps) <= RECURRING_TASK_LIMIT ->
     (validateTimestamps lim now timestamps = returns tt <->
      Forall (passes lim now) timestamps) /\
     (forall e,
        validateTimestamps lim now timestamps = throw e <->
        exists pre t post,
          timestamps = pre ++ t :: post /\
          Forall (passes lim now) pre /\
          checkTimestamp lim now t = throw e)).
Proof.
  split.
  - apply validateTimestamps_too_many.
  - intros Hlen. split.
    + apply validateTimestamps_returns_iff. exact Hlen.
    + intros e. apply validateTimestamps_throws_iff. exact Hlen.
Qed.

Lemma C5_cardinality_witness :
  validateTimestamps 2592000000 1700000000000 (repeat 1 25) = throw TooManyTasks /\
  validateTimestamps 2592000000 1700000000000 [1700002800; 1700006401; 5]
  = throw NotHourAligned.
Proof.
  split.
  - apply (proj1 (C5_cardinality_then_first_violation
                    2592000000 1700000000000 (repeat 1 25))).
    vm_compute. reflexivity.
  - apply (proj2 (proj2 (proj2 (C5_cardinality_then_first_violation
                    2592000000 1700000000000 [1700002800; 1700006401; 5])
                    ltac:(vm_compute; discriminate)) NotHourAligned)).
    exists [1700002800], 1700006401, [5].
    split; [reflexivity |]. split; [| reflexivity].
    constructor; [reflexivity | constructor].
Defined.

(** C9, as the code has it: a sequence of admissible length that holds a
    value not divisible by 3600 is always rejected; the error is the
    not-hour-aligned one when that value is the first one that does not
    pass and is not before the next available hour (a value before it is
    reported as in the past, since that check comes first). *)
Theorem C9_unaligned_rejected (lim now : Z) (timestamps : list Z) (t : Z) :
  Z.of_nat (List.length timestamps) <= RECURRING_TASK_LIMIT ->
  In t timestamps ->
  Z.rem t 3600 <> 0 ->
  (exists e, validateTimestamps lim now timestamps = throw e) /\
  (forall pre post,
     timestamps = pre ++ t :: post ->
     Forall (passes lim now) pre ->
     JS.lt t (nextAvailableHour now) = false ->
     validateTimestamps lim now timestamps = throw NotHourAligned).
Proof.
  intros Hlen Hin Hrem.
  pose proof (validateTimestamps_returns_iff lim now timestamps Hlen) as Hok.
  pose proof (fun e => validateTimestamps_throws_iff lim now timestamps e Hlen) as Herr.
  split.
  - destruct (validateTimestamps lim now timestamps) as [e | []] eqn:Hv.
    + exists e. reflexivity.
    + exfalso.
      assert (Hall : Forall (passes lim now) timestamps) by (apply Hok; reflexivity).
      rewrite Forall_forall in Hall. specialize (Hall t Hin).
      apply checkTimestamp_passes in Hall. tauto.
  - intros pre post Heq Hpre Hlt. apply Herr.
    exists pre, t, post. split; [exact Heq |]. split; [exact Hpre |].
    apply checkTimestamp_unaligned. split; [| exact Hrem].
    rewrite nextAvailableHour_nextHour, JS_lt_inject_Z in Hlt.
    apply Z.ltb_ge. exact Hlt.
Qed.

Lemma C9_unaligned_witness :
  Z.of_nat (List.length [1700002800; 1700006401]) <= RECURRING_TASK_LIMIT /\
  In 1700006401 [1700002800; 1700006401] /\
  Z.rem 1700006401 3600 <> 0 /\
  validateTimestamps 2592000000 1700000000000 [1700002800; 1700006401]
  = throw NotHourAligned.
Proof.
  assert (Hlen : Z.of_nat (List.length [1700002800; 1700006401]) <= RECURRING_TASK_LIMIT)
    by (vm_compute; discriminate).
  assert (Hin : In 1700006401 [1700002800; 1700006401]) by (simpl; auto).
  assert (Hrem : Z.rem 1700006401 3600 <> 0) by (vm_compute; discriminate).
  split; [exact Hlen |]. split; [exact Hin |]. split; [exact Hrem |].
  apply (proj2 (C9_unaligned_rejected 2592000000 1700000000000 _ _ Hlen Hin Hrem)
           [1700002800] []).
  - reflexivity.
  - constructor; [reflexivity | constructor].
  - reflexivity.
Defined.

(** C9 as stated fails: the value 1 is not divisible by 3600, yet the
    error is the in-the-past one. *)
Lemma C9_unaligned_counterexample :
  Z.of_nat (List.length [1]) <= RECURRING_TASK_LIMIT /\
  Z.rem 1 3600 <> 0 /\
  validateTimestamps 2592000000 1700000000000 [1] = throw TimestampInPast /\
  validateTimestamps 2592000000 1700000000000 [1] <> throw NotHourAligned.
Proof.
  split; [vm_compute; discriminate |].
  split; [vm_compute; discriminate |].
  split; [reflexivity | differ].
Qed.

(** C1: the code at a failing input.  The clock reads 1_700_000_000_000 ms
    and the horizon is 2_592_000_000 ms (30 days).  The timestamp
    1_800_000_000 s is hour-aligned and lies more than three years after
    the clock, beyond clock + horizon in seconds, and [validateTimestamps]
    returns: line 126 compares the timestamp, which lines 122 and 124 take
    in seconds, with the clock and the horizon in milliseconds. *)
Theorem C1_horizon_in_mixed_units :
  1700000000000 ÷ 1000 + 2592000000 ÷ 1000 < 1800000000 /\
  checkTimestamp 2592000000 1700000000000 1800000000 <> throw TooFarInFuture /\
  validateTimestamps 2592000000 1700000000000 [1800000000] = returns tt.
Proof.
  split; [vm_compute; reflexivity |].
  split; [differ | reflexivity].
Qed.

(** C2, as the code has it: for a clock at or after the epoch, the next
    available hour is the first hour boundary strictly after the clock;
    a sequence of admissible length fails with the in-the-past error
    exactly when its first timestamp that does not pass is before that
    boundary; and when the clock is itself on an hour boundary, a
    timestamp equal to the clock is rejected as in the past. *)
Theorem C2_next_hour_strictly_after (lim now : Z) (timestamps : list Z) :
  0 <= now ->
  Z.of_nat (List.length timestamps) <= RECURRING_TASK_LIMIT ->
  (exists h,
     nextAvailableHour now = inject_Z h /\
     Z.rem h 3600 = 0 /\
     now < 1000 * h /\
     forall h', Z.rem h' 3600 = 0 -> now < 1000 * h' -> h <= h') /\
  (validateTimestamps lim now timestamps = throw TimestampInPast <->
   exists pre t post,
     timestamps = pre ++ t :: post /\
     Forall (passes lim now) pre /\
     JS.lt t (nextAvailableHour now) = true) /\
  (Z.rem now 3600000 = 0 ->
   validateTimestamps lim now [now ÷ 1000] = throw TimestampInPast).
Proof.
  intros Hnow Hlen. split; [| split].
  - exists (nextHour now). split; [apply nextAvailableHour_nextHour |].
    apply nextHour_strictly_after. exact Hnow.
  - rewrite (validateTimestamps_throws_iff lim now timestamps TimestampInPast Hlen).
    split; intros (pre & t & post & Heq & Hpre & Ht);
      exists pre, t, post; (split; [exact Heq |]; split; [exact Hpre |]).
    + apply checkTimestamp_past in Ht.
      rewrite nextAvailableHour_nextHour, JS_lt_inject_Z. apply Z.ltb_lt. exact Ht.
    + apply checkTimestamp_past.
      rewrite nextAvailableHour_nextHour, JS_lt_inject_Z in Ht.
      apply Z.ltb_lt. exact Ht.
  - intros Haligned.
    rewrite validateTimestamps_admissible by (vm_compute; discriminate).
    simpl.
    assert (Hpast : checkTimestamp lim now (now ÷ 1000) = throw TimestampInPast).
    { apply checkTimestamp_past. unfold nextHour.
      pose proof (Z.quot_rem' now 3600000) as Hq.
      pose proof (Z.quot_rem' now 1000) as Hq'.
      pose proof (Z.rem_bound_pos now 1000 Hnow ltac:(lia)) as Hb.
      lia. }
    rewrite Hpast. reflexivity.
Qed.

Lemma C2_next_hour_witness :
  0 <= 3600000 /\
  Z.of_nat (List.length [3600]) <= RECURRING_TASK_LIMIT /\
  Z.rem 3600000 3600000 = 0 /\
  validateTimestamps 2592000000 3600000 [3600000 ÷ 1000] = throw TimestampInPast.
Proof.
  assert (Hnow : 0 <= 3600000) by lia.
  assert (Hlen : Z.of_nat (List.length [3600]) <= RECURRING_TASK_LIMIT)
    by (vm_compute; discriminate).
  assert (Haligned : Z.rem 3600000 3600000 = 0) by reflexivity.
  split; [exact Hnow |]. split; [exact Hlen |]. split; [exact Haligned |].
  exact (proj2 (proj2 (C2_next_hour_strictly_after 2592000000 3600000 [3600] Hnow Hlen))
           Haligned).
Defined.

(** C2 as stated fails: at the clock 3_600_000 ms, which is on an hour
    boundary, the smallest hour-aligned instant at or after the clock is
    3600 s, but the next available hour is 7200 s and the timestamp 3600,
    equal to the clock, is rejected. *)
Lemma C2_aligned_clock_counterexample :
  Z.rem 3600000 3600000 = 0 /\
  nextAvailableHour 3600000 = inject_Z 7200 /\
  validateTimestamps 2592000000 3600000 [3600] = throw TimestampInPast /\
  validateTimestamps 2592000000 3600000 [3600] <> returns tt.
Proof.
  split; [reflexivity |]. split; [reflexivity |].
  split; [reflexivity | differ].
Qed.

(** ** Methods with effects *)

Section ClientProperties.

Variable Signer : Type.
Variable create : Result (ApiPromise Signer).
Variable stringify : RegistryError -> string.
Variable lim minimum : Z.

Lemma add_calls_add_calls (st : State Signer) (xs ys : list Interaction) :
  add_calls (add_calls st xs) ys = add_calls st (xs ++ ys).
Proof. unfold add_calls; simpl. rewrite app_assoc. reflexivity. Qed.

Lemma add_lines_add_lines (st : State Signer) (xs ys : list string) :
  add_lines (add_lines st xs) ys = add_lines st (xs ++ ys).
Proof. unfold add_lines; simpl. rewrite <- app_assoc. reflexivity. Qed.

(** A client that is connected is handed out as it is. *)
Lemma getAPIClient_cached (st : State Signer) (a : ApiPromise Signer) :
  api st = Some a -> getAPIClient create st = (inr a, st).
Proof.
  intros Hapi. unfold getAPIClient, bind, get_api, ret. rewrite Hapi. reflexivity.
Qed.

(** A failed validation of the timestamps ends a builder at once. *)
Lemma validateTimestampsM_throws (st : State Signer) (timestamps : list Z) (e : Error) :
  validateTimestamps lim (clock st) timestamps = throw e ->
  validateTimestampsM lim timestamps st = (throw e, st).
Proof.
  intros Hv. unfold validateTimestampsM, bind, Date_now, lift. rewrite Hv. reflexivity.
Qed.

Lemma validateTimestampsM_returns (st : State Signer) (timestamps : list Z) :
  validateTimestamps lim (clock st) timestamps = returns tt ->
  validateTimestampsM lim timestamps st = (returns tt, st).
Proof.
  intros Hv. unfold validateTimestampsM, bind, Date_now, lift. rewrite Hv. reflexivity.
Qed.

(** C6: when [validateTimestamps] throws, both builders throw the same
    error and leave the state as it was: the client is not connected,
    no extrinsic is assembled and nothing is signed.  The same holds for
    the transfer builder when the timestamps pass and
    [validateTransferParams] throws. *)
Theorem C6_validation_precedes_interaction
    (st : State Signer) (address receivingAddress message providedText : string)
    (providedID amount : Z) (timestamps : list Z) (signer : Signer) (e : Error) :
  (validateTimestamps lim (clock st) timestamps = throw e ->
     buildScheduleNotifyExtrinsic create lim
       address providedID timestamps message signer st = (throw e, st) /\
     buildScheduleNativeTransferExtrinsic create lim minimum
       address providedText timestamps receivingAddress amount signer st
     = (throw e, st)) /\
  (validateTimestamps lim (clock st) timestamps = returns tt ->
   validateTransferParams minimum amount address receivingAddress = throw e ->
     buildScheduleNativeTransferExtrinsic create lim minimum
       address providedText timestamps receivingAddress amount signer st
     = (throw e, st)).
Proof.
  split.
  - intros Hv. split.
    + unfold buildScheduleNotifyExtrinsic, bind.
      rewrite (validateTimestampsM_throws st timestamps e Hv). reflexivity.
    + unfold buildScheduleNativeTransferExtrinsic, bind.
      rewrite (validateTimestampsM_throws st timestamps e Hv). reflexivity.
  - intros Hv Hp.
    unfold buildScheduleNativeTransferExtrinsic, bind.
    rewrite (validateTimestampsM_returns st timestamps Hv).
    unfold returns, lift. rewrite Hp. reflexivity.
Qed.

(** C10: the empty sequence passes [validateTimestamps]; the notify
    builder then connects, assembles [scheduleNotifyTask] with no
    execution time and has it signed, and so does the transfer builder
    when the transfer parameters are valid. *)
Theorem C10_empty_schedule_is_built
    (st st' : State Signer) (a : ApiPromise Signer)
    (address receivingAddress message providedText : string)
    (providedID amount : Z) (signer : Signer) :
  getAPIClient create st = (inr a, st') ->
  validateTimestamps lim (clock st) [] = returns tt /\
  buildScheduleNotifyExtrinsic create lim address providedID [] message signer st
  = (signAsync a (scheduleNotifyTask providedID [] message) address signer,
     add_calls st' [Assemble (scheduleNotifyTask providedID [] message);
                    Sign address (scheduleNotifyTask providedID [] message)]) /\
  (validateTransferParams minimum amount address receivingAddress = returns tt ->
   buildScheduleNativeTransferExtrinsic create lim minimum
     address providedText [] receivingAddress amount signer st
   = (signAsync a (scheduleNativeTransferTask providedText [] receivingAddress amount)
        address signer,
      add_calls st'
        [Assemble (scheduleNativeTransferTask providedText [] receivingAddress amount);
         Sign address
           (scheduleNativeTransferTask providedText [] receivingAddress amount)])).
Proof.
  intros Hapi.
  assert (Hv : validateTimestamps lim (clock st) [] = returns tt) by reflexivity.
  split; [exact Hv |]. split.
  - unfold buildScheduleNotifyExtrinsic, bind.
    rewrite (validateTimestampsM_returns st [] Hv). unfold returns.
    rewrite Hapi. unfold interact, lift. simpl convertToSeconds.
    rewrite add_calls_add_calls. reflexivity.
  - intros Hp.
    unfold buildScheduleNativeTransferExtrinsic, bind.
    rewrite (validateTimestampsM_returns st [] Hv). unfold returns, lift.
    unfold returns in Hp. rewrite Hp.
    rewrite Hapi. unfold interact. simpl convertToSeconds.
    rewrite add_calls_add_calls. reflexivity.
Qed.

(** Without a handler of the caller, the callback announces the default
    handler and runs it. *)
Lemma sendCallback_default (st : State Signer) (result : ISubmittableResult) :
  sendCallback create stringify None result st
  = defaultErrorHandler create stringify result
      (add_lines st ["Using default error handler"%string]).
Proof. reflexivity. Qed.

(** Delivering status events never throws into the sender. *)
Lemma deliver_returns (events : list ISubmittableResult)
    (callback : ISubmittableResult -> M Signer unit) (st : State Signer) :
  fst (deliver events callback st) = returns tt.
Proof.
  revert st. induction events as [| result rest IH]; intros st.
  - reflexivity.
  - simpl. apply IH.
Qed.

(** With a connected client [sendExtrinsic] decodes the bytes and submits
    them; a failure of either is thrown to the caller.  Once the
    submission is accepted, the callback sees the events observed before
    the unsubscription, the subscription is released and the hash of the
    decoded extrinsic is returned, whatever the handler is. *)
Lemma sendExtrinsic_connected
    (st : State Signer) (a : ApiPromise Signer) (extrinsicHex : HexString)
    (handleDispatch : option (ISubmittableResult -> M Signer unit)) :
  api st = Some a ->
  sendExtrinsic create stringify extrinsicHex handleDispatch st
  = match tx a extrinsicHex with
    | inl e => (throw e, st)
    | inr txObject =>
        match send txObject with
        | inl e => (throw e, add_calls st [Submit extrinsicHex])
        | inr stream =>
            (returns (hash txObject),
             add_calls
               (snd (deliver (observedBeforeUnsubscribe stream)
                       (sendCallback create stringify handleDispatch)
                       (add_calls st [Submit extrinsicHex])))
               [Unsubscribe])
        end
    end.
Proof.
  intros Hapi. unfold sendExtrinsic. unfold bind at 1.
  rewrite (getAPIClient_cached st a Hapi).
  unfold bind at 1. unfold lift at 1.
  destruct (tx a extrinsicHex) as [e | txObject]; [reflexivity |].
  unfold bind at 1. unfold interact at 1.
  unfold bind at 1. unfold lift at 1.
  destruct (send txObject) as [e | stream]; [reflexivity |].
  unfold bind at 1.
  pose proof (deliver_returns (observedBeforeUnsubscribe stream)
                (sendCallback create stringify handleDispatch)
                (add_calls st [Submit extrinsicHex])) as Hret.
  destruct (deliver (observedBeforeUnsubscribe stream)
              (sendCallback create stringify handleDispatch)
              (add_calls st [Submit extrinsicHex])) as [r st1].
  simpl in Hret. subst r. reflexivity.
Qed.

End ClientProperties.

Lemma C6_validation_witness :
  buildScheduleNotifyExtrinsic (returns sampleApi) 2592000000
    "alice" 7 [1700002800; 1700006401] "ping" tt freshState
  = (throw NotHourAligned, freshState) /\
  buildScheduleNativeTransferExtrinsic (returns sampleApi) 2592000000 1000000000
    "alice" "task-7" [1700002800] "bob" 999999999 tt freshState
  = (throw AmountTooLow, freshState).
Proof.
  split.
  - apply (proj1 (C6_validation_precedes_interaction unit (returns sampleApi)
                    2592000000 1000000000 freshState
                    "alice" "bob" "ping" "task-7" 7 999999999
                    [1700002800; 1700006401] tt NotHourAligned)).
    reflexivity.
  - apply (proj2 (C6_validation_precedes_interaction unit (returns sampleApi)
                    2592000000 1000000000 freshState
                    "alice" "bob" "ping" "task-7" 7 999999999
                    [1700002800] tt AmountTooLow)).
    + reflexivity.
    + reflexivity.
Defined.

Lemma C10_empty_schedule_witness :
  getAPIClient (returns sampleApi) freshState = (inr sampleApi, connectedState) /\
  buildScheduleNotifyExtrinsic (returns sampleApi) 2592000000
    "alice" 7 [] "ping" tt freshState
  = (returns "0x2a"%string,
     add_calls connectedState
       [Assemble (scheduleNotifyTask 7 [] "ping");
        Sign "alice" (scheduleNotifyTask 7 [] "ping")]) /\
  buildScheduleNativeTransferExtrinsic (returns sampleApi) 2592000000 1000000000
    "alice" "task-7" [] "bob" 5000000000 tt freshState
  = (returns "0x2a"%string,
     add_calls connectedState
       [Assemble (scheduleNativeTransferTask "task-7" [] "bob" 5000000000);
        Sign "alice" (scheduleNativeTransferTask "task-7" [] "bob" 5000000000)]).
Proof.
  split; [reflexivity |].
  pose proof (C10_empty_schedule_is_built unit (returns sampleApi)
                2592000000 1000000000 freshState connectedState sampleApi
                "alice" "bob" "ping" "task-7" 7 5000000000 tt eq_refl)
    as [_ [Hnotify Htransfer]].
  split; [exact Hnotify | exact (Htransfer eq_refl)].
Defined.

(** * Further properties *)

(** ** Acceptance of a schedule *)

Lemma passes_inWindow (lim now t : Z) : passes lim now t <-> inWindow lim now t.
Proof. apply checkTimestamp_passes. Qed.

(** Acceptance in terms of the window. *)
Lemma validateTimestamps_inWindow (lim now : Z) (timestamps : list Z) :
  validateTimestamps lim now timestamps = returns tt <->
  Z.of_nat (List.length timestamps) <= 24 /\
  Forall (inWindow lim now) timestamps.
Proof.
  split.
  - intros Hok.
    destruct (Z_le_gt_dec (Z.of_nat (List.length timestamps)) RECURRING_TASK_LIMIT)
      as [Hlen | Hlen].
    + split; [exact Hlen |].
      apply (validateTimestamps_returns_iff lim now timestamps Hlen) in Hok.
      eapply Forall_impl; [| exact Hok]. intros t. apply passes_inWindow.
    + rewrite validateTimestamps_too_many in Hok by lia.
      exfalso. revert Hok. differ.
  - intros [Hlen Hall].
    apply (validateTimestamps_returns_iff lim now timestamps Hlen).
    eapply Forall_impl; [| exact Hall]. intros t. apply passes_inWindow.
Qed.

(** X1: A schedule is accepted exactly when it has at most 24 entries and each
    entry is on an hour boundary, not before the next available hour and
    not after clock plus limit. *)
Theorem validateTimestamps_accepts_iff (lim now : Z) (timestamps : list Z) :
  validateTimestamps lim now timestamps = returns tt <->
  Z.of_nat (List.length timestamps) <= 24 /\
  Forall (fun t => nextHour now <= t /\ Z.rem t 3600 = 0 /\ t <= now + lim)
         timestamps.
Proof.
  split.
  - intros Hok.
    destruct (Z_le_gt_dec (Z.of_nat (List.length timestamps)) RECURRING_TASK_LIMIT)
      as [Hlen | Hlen].
    + split; [exact Hlen |].
      apply (validateTimestamps_returns_iff lim now timestamps Hlen) in Hok.
      eapply Forall_impl; [| exact Hok]. intros t. apply checkTimestamp_passes.
    + rewrite validateTimestamps_too_many in Hok by lia.
      exfalso. revert Hok. differ.
  - intros [Hlen Hall].
    apply (validateTimestamps_returns_iff lim now timestamps Hlen).
    eapply Forall_impl; [| exact Hall]. intros t. apply checkTimestamp_passes.
Qed.

Lemma validateTimestamps_accepts_iff_witness :
  validateTimestamps 2592000000 1700000000000 [1700002800; 1700006400] = returns tt.
Proof.
  apply (proj2 (validateTimestamps_accepts_iff 2592000000 1700000000000
                  [1700002800; 1700006400])).
  split; [vm_compute; discriminate |].
  repeat constructor; vm_compute; discriminate.
Defined.

(** The callback throws one of three errors or returns. *)
Lemma checkTimestamp_outcomes (lim now t : Z) :
  checkTimestamp lim now t = returns tt \/
  checkTimestamp lim now t = throw TimestampInPast \/
  checkTimestamp lim now t = throw NotHourAligned \/
  checkTimestamp lim now t = throw TooFarInFuture.
Proof.
  unfold checkTimestamp.
  destruct (JS.lt t (nextAvailableHour now)); [tauto |].
  destruct (negb (Z.rem t (SEC_IN_MIN * MIN_IN_HOUR) =? 0)); [tauto |].
  destruct (t >? now + lim); tauto.
Qed.

(** X2: The four errors of the validator are the only ones it throws. *)
Theorem validateTimestamps_outcomes (lim now : Z) (timestamps : list Z) :
  validateTimestamps lim now timestamps = returns tt \/
  validateTimestamps lim now timestamps = throw TooManyTasks \/
  validateTimestamps lim now timestamps = throw TimestampInPast \/
  validateTimestamps lim now timestamps = throw NotHourAligned \/
  validateTimestamps lim now timestamps = throw TooFarInFuture.
Proof.
  unfold validateTimestamps.
  destruct (Z.of_nat (List.length timestamps) >? RECURRING_TASK_LIMIT); [tauto |].
  induction timestamps as [| t rest IH]; simpl.
  - left. reflexivity.
  - destruct (checkTimestamp_outcomes lim now t) as [H | [H | [H | H]]];
      rewrite H; unfold returns, throw; tauto.
Qed.

(** X3: Acceptance does not depend on the order of the timestamps. *)
Theorem validateTimestamps_permutation (lim now : Z) (timestamps reordered : list Z) :
  Permutation timestamps reordered ->
  validateTimestamps lim now timestamps = returns tt ->
  validateTimestamps lim now reordered = returns tt.
Proof.
  intros Hperm Hok.
  apply validateTimestamps_inWindow in Hok. destruct Hok as [Hlen Hall].
  apply validateTimestamps_inWindow. split.
  - rewrite <- (Permutation_length Hperm). exact Hlen.
  - exact (Permutation_Forall Hperm Hall).
Qed.

Lemma validateTimestamps_permutation_witness :
  Permutation [1700002800; 1700006400] [1700006400; 1700002800] /\
  validateTimestamps 2592000000 1700000000000 [1700006400; 1700002800] = returns tt.
Proof.
  assert (Hperm : Permutation [1700002800; 1700006400] [1700006400; 1700002800])
    by apply perm_swap.
  split; [exact Hperm |].
  exact (validateTimestamps_permutation 2592000000 1700000000000 _ _ Hperm eq_refl).
Defined.

(** X4: Two schedules are accepted together exactly when each is accepted and
    they have at most 24 entries together. *)
Theorem validateTimestamps_app (lim now : Z) (first second : list Z) :
  validateTimestamps lim now (first ++ second) = returns tt <->
  validateTimestamps lim now first = returns tt /\
  validateTimestamps lim now second = returns tt /\
  Z.of_nat (List.length first + List.length second) <= 24.
Proof.
  rewrite !validateTimestamps_inWindow, Forall_app, length_app.
  split.
  - intros [Hlen [H1 H2]]. repeat split; try assumption; lia.
  - intros [[_ H1] [[_ H2] Hlen]]. repeat split; assumption.
Qed.

Lemma validateTimestamps_app_witness :
  validateTimestamps 2592000000 1700000000000 ([1700002800] ++ [1700006400])
  = returns tt.
Proof.
  apply (proj2 (validateTimestamps_app 2592000000 1700000000000
                  [1700002800] [1700006400])).
  split; [reflexivity |]. split; [reflexivity |]. vm_compute; discriminate.
Defined.

(** X5: A schedule accepted at some clock stays accepted while the clock
    advances within the same hour. *)
Theorem validateTimestamps_stable_within_hour
    (lim now later : Z) (timestamps : list Z) :
  now <= later ->
  later ÷ 3600000 = now ÷ 3600000 ->
  validateTimestamps lim now timestamps = returns tt ->
  validateTimestamps lim later timestamps = returns tt.
Proof.
  intros Hle Hhour Hok.
  apply validateTimestamps_inWindow in Hok. destruct Hok as [Hlen Hall].
  apply validateTimestamps_inWindow. split; [exact Hlen |].
  eapply Forall_impl; [| exact Hall].
  intros t (Hfloor & Haligned & Hceil). unfold inWindow, nextHour in *.
  rewrite Hhour. repeat split; (assumption || lia).
Qed.

Lemma validateTimestamps_stable_witness :
  1700000000000 <= 1700001000000 /\
  1700001000000 ÷ 3600000 = 1700000000000 ÷ 3600000 /\
  validateTimestamps 2592000000 1700001000000 [1700002800] = returns tt.
Proof.
  assert (Hle : 1700000000000 <= 1700001000000) by lia.
  assert (Hhour : 1700001000000 ÷ 3600000 = 1700000000000 ÷ 3600000) by reflexivity.
  split; [exact Hle |]. split; [exact Hhour |].
  exact (validateTimestamps_stable_within_hour 2592000000 1700000000000
           1700001000000 [1700002800] Hle Hhour eq_refl).
Defined.

(** ** Units of the timestamps *)

(** An error of the validator other than the one of the length is the
    error of one of the timestamps. *)
Lemma validateTimestamps_throws_elt (lim now : Z) (timestamps : list Z) (e : Error) :
  validateTimestamps lim now timestamps = throw e ->
  e = TooManyTasks \/
  exists t, In t timestamps /\ checkTimestamp lim now t = throw e.
Proof.
  intros Hthrow.
  destruct (Z_le_gt_dec (Z.of_nat (List.length timestamps)) RECURRING_TASK_LIMIT)
    as [Hlen | Hlen].
  - right.
    apply (validateTimestamps_throws_iff lim now timestamps e Hlen) in Hthrow.
    destruct Hthrow as (pre & t & post & Heq & _ & Ht).
    exists t. split; [| exact Ht]. subst timestamps. apply in_elt.
  - left. rewrite validateTimestamps_too_many in Hthrow by lia.
    unfold throw in Hthrow. congruence.
Qed.

Lemma nextHour_bound (now : Z) :
  now <= 99000000000000 -> nextHour now <= 100000000000.
Proof.
  intros Hnow. unfold nextHour.
  pose proof (Z.quot_le_mono now 99000000000000 3600000 ltac:(lia) Hnow) as Hq.
  change (99000000000000 ÷ 3600000) with 27500000 in Hq. lia.
Qed.

(** X6: Timestamps above 100_000_000_000, which [convertToSeconds] takes for
    milliseconds, are never rejected as being in the past: they are
    compared with the next available hour in seconds.  Such a schedule is
    accepted exactly when it has at most 24 entries, each divisible by
    3600 and not after clock plus limit. *)
Theorem millisecond_timestamps_never_in_past (lim now : Z) (timestamps : list Z) :
  now <= 99000000000000 ->
  Forall (fun t => 100000000000 < t) timestamps ->
  validateTimestamps lim now timestamps <> throw TimestampInPast /\
  (validateTimestamps lim now timestamps = returns tt <->
   Z.of_nat (List.length timestamps) <= 24 /\
   Forall (fun t => Z.rem t 3600 = 0 /\ t <= now + lim) timestamps).
Proof.
  intros Hnow Hms. pose proof (nextHour_bound now Hnow) as Hnh.
  rewrite Forall_forall in Hms. split.
  - intros Hthrow.
    apply validateTimestamps_throws_elt in Hthrow.
    destruct Hthrow as [Heq | (t & Hin & Ht)].
    + revert Heq. differ.
    + apply checkTimestamp_past in Ht. specialize (Hms t Hin). lia.
  - rewrite validateTimestamps_inWindow, !Forall_forall. unfold inWindow.
    split; intros [Hlen Hall]; (split; [exact Hlen |]); intros t Hin;
      specialize (Hall t Hin); specialize (Hms t Hin); simpl in *.
    + tauto.
    + repeat split; (tauto || lia).
Qed.

Lemma millisecond_timestamps_witness :
  1700000000000 <= 99000000000000 /\
  Forall (fun t => 100000000000 < t) [1000000800000] /\
  1000000800000 < 1700000000000 /\
  validateTimestamps 2592000000 1700000000000 [1000000800000] = returns tt.
Proof.
  assert (Hnow : 1700000000000 <= 99000000000000) by lia.
  assert (Hms : Forall (fun t => 100000000000 < t) [1000000800000])
    by (repeat constructor).
  split; [exact Hnow |]. split; [exact Hms |]. split; [lia |].
  apply (proj2 (proj2 (millisecond_timestamps_never_in_past
                         2592000000 1700000000000 [1000000800000] Hnow Hms))).
  split; [vm_compute; discriminate |].
  repeat constructor. vm_compute; discriminate.
Defined.

(** X7: Timestamps up to 100_000_000_000, which [convertToSeconds] takes for
    seconds, are never rejected as too far in the future once the clock,
    in milliseconds, is past that value: they are compared with clock
    plus limit in the unit of the clock.  Such a schedule is accepted
    exactly when it has at most 24 entries, each on an hour boundary and
    not before the next available hour. *)
Theorem second_timestamps_never_too_far (lim now : Z) (timestamps : list Z) :
  0 <= lim ->
  100000000000 <= now ->
  Forall (fun t => t <= 100000000000) timestamps ->
  validateTimestamps lim now timestamps <> throw TooFarInFuture /\
  (validateTimestamps lim now timestamps = returns tt <->
   Z.of_nat (List.length timestamps) <= 24 /\
   Forall (fun t => nextHour now <= t /\ Z.rem t 3600 = 0) timestamps).
Proof.
  intros Hlim Hnow Hs. rewrite Forall_forall in Hs. split.
  - intros Hthrow.
    apply validateTimestamps_throws_elt in Hthrow.
    destruct Hthrow as [Heq | (t & Hin & Ht)].
    + revert Heq. differ.
    + apply checkTimestamp_too_far in Ht. specialize (Hs t Hin). simpl in Hs. lia.
  - rewrite validateTimestamps_inWindow, !Forall_forall. unfold inWindow.
    split; intros [Hlen Hall]; (split; [exact Hlen |]); intros t Hin;
      specialize (Hall t Hin); specialize (Hs t Hin); simpl in *.
    + tauto.
    + repeat split; (tauto || lia).
Qed.

Lemma second_timestamps_witness :
  0 <= 2592000000 /\
  100000000000 <= 1700000000000 /\
  Forall (fun t => t <= 100000000000) [99999997200] /\
  validateTimestamps 2592000000 1700000000000 [99999997200] = returns tt.
Proof.
  assert (Hlim : 0 <= 2592000000) by lia.
  assert (Hnow : 100000000000 <= 1700000000000) by lia.
  assert (Hs : Forall (fun t => t <= 100000000000) [99999997200])
    by (repeat constructor; vm_compute; discriminate).
  split; [exact Hlim |]. split; [exact Hnow |]. split; [exact Hs |].
  apply (proj2 (proj2 (second_timestamps_never_too_far
                         2592000000 1700000000000 [99999997200] Hlim Hnow Hs))).
  split; [vm_compute; discriminate |].
  repeat constructor; vm_compute; (discriminate || reflexivity).
Defined.

(** X8: A value taken for milliseconds converts to a whole number of seconds
    exactly when it is a multiple of 1000; a millisecond timestamp on an
    hour boundary converts to the second timestamp of that boundary. *)
Theorem convertToSeconds_whole_seconds (t : Z) :
  100000000000 < t ->
  (forall s, convertToSeconds [t] = [inject_Z s] <-> t = 1000 * s) /\
  (forall k, t = 3600000 * k -> convertToSeconds [t] = [inject_Z (3600 * k)]).
Proof.
  intros Hms.
  assert (Hconv : convertToSeconds [t] = [JS.div t 1000]).
  { unfold convertToSeconds; simpl.
    destruct (Z.gtb_spec t 100000000000); [reflexivity | lia]. }
  assert (Hiff : forall s, convertToSeconds [t] = [inject_Z s] <-> t = 1000 * s).
  { intros s. rewrite Hconv. split.
    - intros Heq. inversion Heq as [Hq]. clear Heq.
      destruct (Z_lt_ge_dec t (2 ^ 53)) as [Hsafe | Hbig].
      + destruct (div_1000_rounded t Hms Hsafe)
          as (m & shift & Hshift & Hdiv & _ & Hnear).
        pose proof (pow2_ge_512 shift Hshift) as Hp.
        assert (Hqeq : (Qmake m (Z.to_pos (2 ^ shift)) == inject_Z s)%Q).
        { rewrite <- Hq, Hdiv. symmetry. apply Qred_correct. }
        unfold Qeq, inject_Z in Hqeq. simpl in Hqeq.
        rewrite Z2Pos.id in Hqeq by lia. nia.
      + assert (Hqeq : (inject_Z t / inject_Z 1000 == inject_Z s)%Q).
        { rewrite <- Hq. unfold JS.div, JS.isSafeInteger.
          rewrite Z.abs_eq by lia.
          destruct (Z.ltb_spec t (2 ^ 53)); [lia |]. simpl andb. cbv iota.
          symmetry. apply Qred_correct. }
        unfold Qeq, Qdiv, Qmult, Qinv, inject_Z in Hqeq. simpl in Hqeq. lia.
    - intros ->. rewrite JS_div_exact by lia. reflexivity. }
  split; [exact Hiff |].
  intros k Hk. apply Hiff. lia.
Qed.

Lemma convertToSeconds_whole_seconds_witness :
  100000000000 < 1700002800000 /\
  convertToSeconds [1700002800000] = [inject_Z (3600 * 472223)].
Proof.
  assert (Hms : 100000000000 < 1700002800000) by lia.
  split; [exact Hms |].
  apply (proj2 (convertToSeconds_whole_seconds 1700002800000 Hms) 472223).
  reflexivity.
Defined.

(** ** The connection *)

Section Connection.

Variable Signer : Type.
Variable stringify : RegistryError -> string.
Variable generateTaskId : ApiPromise Signer -> string -> string -> Result string.
Variable lim minimum : Z.

(** X9: [getAPIClient] keeps a client it obtained and hands it out from then
    on without asking the node again, whatever the node would answer;
    a failed connection is not kept: the scheduler stays without client
    and the next call connects again. *)
Theorem getAPIClient_keeps_success_only
    (create later : Result (ApiPromise Signer)) (st : State Signer) :
  (forall a st', getAPIClient create st = (returns a, st') ->
     api st' = Some a /\ getAPIClient later st' = (returns a, st')) /\
  (forall e st', getAPIClient create st = (throw e, st') ->
     api st = None /\ api st' = None /\ calls st' = calls st ++ [Connect] /\
     forall a, exists st'',
       getAPIClient (returns a) st' = (returns a, st'') /\
       api st'' = Some a /\
       calls st'' = calls st ++ [Connect; Connect]).
Proof.
  unfold getAPIClient, bind, get_api, interact, lift, set_api, ret, returns, throw.
  destruct (api st) as [cached |] eqn:Hapi; simpl.
  - split.
    + intros a st' Heq. inversion Heq; subst. rewrite Hapi. auto.
    + intros e st' Heq. discriminate.
  - destruct create as [e0 | a0]; simpl; split.
    + intros a st' Heq. discriminate.
    + intros e st' Heq. inversion Heq; subst. simpl. rewrite Hapi.
      repeat split. intros a. eexists. simpl. split; [reflexivity |].
      simpl. rewrite <- app_assoc. split; reflexivity.
    + intros a st' Heq. inversion Heq; subst. simpl. auto.
    + intros e st' Heq. discriminate.
Qed.

(** A method whose run only adds interactions that are no connection
    reuses the client. *)
Lemma reusesConnection_add_calls {A : Type} (method : M Signer A)
    (a : ApiPromise Signer) (st st1 : State Signer) (r : Result A)
    (interactions : list Interaction) :
  api st = Some a ->
  api st1 = api st ->
  calls st1 = calls st ->
  ~ In Connect interactions ->
  method st = (r, add_calls st1 interactions) ->
  reusesConnection method a st.
Proof.
  intros Hapi Hsame Hcalls Hnot Hrun. unfold reusesConnection.
  rewrite Hrun. simpl. split; [congruence |].
  exists interactions. rewrite Hcalls. auto.
Qed.

Lemma reusesConnection_unchanged {A : Type} (method : M Signer A)
    (a : ApiPromise Signer) (st : State Signer) (r : Result A) :
  api st = Some a ->
  method st = (r, st) ->
  reusesConnection method a st.
Proof.
  intros Hapi Hrun. unfold reusesConnection. rewrite Hrun. simpl.
  split; [exact Hapi |]. exists []. rewrite app_nil_r. auto.
Qed.

Lemma assemble_sign_no_connect (address : string) (extrinsic : Extrinsic) :
  ~ In Connect [Assemble extrinsic; Sign address extrinsic].
Proof. simpl. intros [H | [H | []]]; discriminate. Qed.

(** With a connected client and an accepted schedule the notify builder
    assembles [scheduleNotifyTask] on the converted timestamps and has it
    signed. *)
Lemma buildScheduleNotifyExtrinsic_valid
    (create : Result (ApiPromise Signer)) (st : State Signer) (a : ApiPromise Signer)
    (address message : string) (providedID : Z) (timestamps : list Z)
    (signer : Signer) :
  api st = Some a ->
  validateTimestamps lim (clock st) timestamps = returns tt ->
  buildScheduleNotifyExtrinsic create lim address providedID timestamps message signer st
  = (signAsync a (scheduleNotifyTask providedID (convertToSeconds timestamps) message)
       address signer,
     add_calls st
       [Assemble (scheduleNotifyTask providedID (convertToSeconds timestamps) message);
        Sign address
          (scheduleNotifyTask providedID (convertToSeconds timestamps) message)]).
Proof.
  intros Hapi Hv. unfold buildScheduleNotifyExtrinsic, bind.
  rewrite (validateTimestampsM_returns Signer lim st timestamps Hv). unfold returns.
  rewrite (getAPIClient_cached Signer create st a Hapi).
  unfold interact, lift. rewrite add_calls_add_calls. reflexivity.
Qed.

Lemma buildScheduleNativeTransferExtrinsic_valid
    (create : Result (ApiPromise Signer)) (st : State Signer) (a : ApiPromise Signer)
    (address providedText receivingAddress : string) (amount : Z)
    (timestamps : list Z) (signer : Signer) :
  api st = Some a ->
  validateTimestamps lim (clock st) timestamps = returns tt ->
  validateTransferParams minimum amount address receivingAddress = returns tt ->
  buildScheduleNativeTransferExtrinsic create lim minimum
    address providedText timestamps receivingAddress amount signer st
  = (signAsync a
       (scheduleNativeTransferTask providedText (convertToSeconds timestamps)
          receivingAddress amount) address signer,
     add_calls st
       [Assemble (scheduleNativeTransferTask providedText
                    (convertToSeconds timestamps) receivingAddress amount);
        Sign address (scheduleNativeTransferTask providedText
                        (convertToSeconds timestamps) receivingAddress amount)]).
Proof.
  intros Hapi Hv Hp. unfold buildScheduleNativeTransferExtrinsic, bind.
  rewrite (validateTimestampsM_returns Signer lim st timestamps Hv).
  unfold returns, lift. unfold returns in Hp. rewrite Hp.
  rewrite (getAPIClient_cached Signer create st a Hapi).
  unfold interact. rewrite add_calls_add_calls. reflexivity.
Qed.

Lemma buildCancelTaskExtrinsic_connected
    (create : Result (ApiPromise Signer)) (st : State Signer) (a : ApiPromise Signer)
    (address : string) (providedID : Z) (signer : Signer) :
  api st = Some a ->
  buildCancelTaskExtrinsic create address providedID signer st
  = (signAsync a (cancelTask providedID) address signer,
     add_calls st [Assemble (cancelTask providedID);
                   Sign address (cancelTask providedID)]).
Proof.
  intros Hapi. unfold buildCancelTaskExtrinsic, bind.
  rewrite (getAPIClient_cached Signer create st a Hapi).
  unfold interact, lift. rewrite add_calls_add_calls. reflexivity.
Qed.

(** What [getAPIClient] does without a client. *)
Lemma getAPIClient_disconnected
    (create : Result (ApiPromise Signer)) (st : State Signer) :
  api st = None ->
  getAPIClient create st
  = match create with
    | inl e => (throw e, add_calls st [Connect])
    | inr a => (returns a,
                {| api := Some a; clock := clock st; console := console st;
                   calls := calls st ++ [Connect] |})
    end.
Proof.
  intros Hapi. unfold getAPIClient, bind, get_api. rewrite Hapi.
  destruct create; reflexivity.
Qed.

(** The part of the three builders after the validation. *)
Lemma assemble_and_sign
    (create : Result (ApiPromise Signer)) (st : State Signer)
    (address : string) (extrinsic : Extrinsic) (signer : Signer) :
  bind Signer (getAPIClient create) (fun polkadotApi =>
    bind Signer (interact Signer (Assemble extrinsic)) (fun _ =>
    bind Signer (interact Signer (Sign address extrinsic)) (fun _ =>
    lift Signer (signAsync polkadotApi extrinsic address signer)))) st
  = match getAPIClient create st with
    | (inl e, st1) => (throw e, st1)
    | (inr a, st1) =>
        (signAsync a extrinsic address signer,
         add_calls st1 [Assemble extrinsic; Sign address extrinsic])
    end.
Proof.
  unfold bind at 1. destruct (getAPIClient create st) as [[e | a] st1].
  - reflexivity.
  - unfold bind, interact, lift. rewrite add_calls_add_calls. reflexivity.
Qed.

(** X10: A connection that fails is the first thing the caller sees: nothing is
    assembled, signed or submitted, no task id is asked for, and the only
    interaction is the attempt to connect.  For the two schedule builders
    this is the case once the validation has passed. *)
Theorem connection_failure_comes_first
    (st : State Signer) (e : Error)
    (address receivingAddress message providedText : string)
    (providedID amount : Z) (timestamps : list Z) (signer : Signer)
    (extrinsicHex : HexString)
    (handleDispatch : option (ISubmittableResult -> M Signer unit)) :
  api st = None ->
  getTaskID (throw e) generateTaskId address providedText st
  = (throw e, add_calls st [Connect]) /\
  buildCancelTaskExtrinsic (throw e) address providedID signer st
  = (throw e, add_calls st [Connect]) /\
  sendExtrinsic (throw e) stringify extrinsicHex handleDispatch st
  = (throw e, add_calls st [Connect]) /\
  (validateTimestamps lim (clock st) timestamps = returns tt ->
   buildScheduleNotifyExtrinsic (throw e) lim
     address providedID timestamps message signer st
   = (throw e, add_calls st [Connect]) /\
   (validateTransferParams minimum amount address receivingAddress = returns tt ->
    buildScheduleNativeTransferExtrinsic (throw e) lim minimum
      address providedText timestamps receivingAddress amount signer st
    = (throw e, add_calls st [Connect]))).
Proof.
  intros Hapi.
  pose proof (getAPIClient_disconnected (throw e) st Hapi) as Hget. simpl in Hget.
  split; [| split; [| split]].
  - unfold getTaskID, bind. rewrite Hget. reflexivity.
  - unfold buildCancelTaskExtrinsic. rewrite assemble_and_sign, Hget. reflexivity.
  - unfold sendExtrinsic, bind. rewrite Hget. reflexivity.
  - intros Hv. split.
    + unfold buildScheduleNotifyExtrinsic. unfold bind at 1.
      rewrite (validateTimestampsM_returns Signer lim st timestamps Hv). unfold returns.
      rewrite assemble_and_sign, Hget. reflexivity.
    + intros Hp. unfold buildScheduleNativeTransferExtrinsic. unfold bind at 1.
      rewrite (validateTimestampsM_returns Signer lim st timestamps Hv). unfold returns.
      unfold bind at 1. unfold lift at 1. unfold returns in Hp. rewrite Hp.
      rewrite assemble_and_sign, Hget. reflexivity.
Qed.

(** The transfer parameters are accepted exactly when the amount is not
    below the minimum and the two addresses differ. *)
Lemma validateTransferParams_returns_iff
    (amount : Z) (sendingAddress receivingAddress : string) :
  validateTransferParams minimum amount sendingAddress receivingAddress = returns tt <->
  minimum <= amount /\ sendingAddress <> receivingAddress.
Proof.
  unfold validateTransferParams, JS.strict_eq.
  destruct (Z.ltb_spec amount minimum).
  - split; [differ | lia].
  - destruct (String.eqb_spec sendingAddress receivingAddress).
    + split; [differ | tauto].
    + split; [intros _; split; [lia | assumption] | reflexivity].
Qed.

(** ** What a returned extrinsic guarantees *)

(** X11: When the notify builder returns a hex string, the schedule had passed
    [validateTimestamps] at the clock of the call, the string is what the
    signer gave for [scheduleNotifyTask] on the converted timestamps, and
    the interactions were one assembly and one signature, after one
    connection if there was no client. *)
Theorem buildScheduleNotifyExtrinsic_sound
    (create : Result (ApiPromise Signer)) (st st' : State Signer)
    (address message : string) (providedID : Z) (timestamps : list Z)
    (signer : Signer) (hex : HexString) :
  buildScheduleNotifyExtrinsic create lim
    address providedID timestamps message signer st = (returns hex, st') ->
  validateTimestamps lim (clock st) timestamps = returns tt /\
  exists a,
    api st' = Some a /\
    signAsync a (scheduleNotifyTask providedID (convertToSeconds timestamps) message)
      address signer = returns hex /\
    exists connection,
      (connection = [] /\ api st = Some a \/
       connection = [Connect] /\ api st = None /\ create = returns a) /\
      calls st' = calls st ++ connection ++
        [Assemble (scheduleNotifyTask providedID (convertToSeconds timestamps) message);
         Sign address
           (scheduleNotifyTask providedID (convertToSeconds timestamps) message)].
Proof.
  intros Hrun.
  destruct (validateTimestamps lim (clock st) timestamps) as [e | []] eqn:Hv.
  - exfalso. unfold buildScheduleNotifyExtrinsic in Hrun. unfold bind at 1 in Hrun.
    rewrite (validateTimestampsM_throws Signer lim st timestamps e Hv) in Hrun.
    unfold throw, returns in Hrun. discriminate.
  - split; [reflexivity |].
    unfold buildScheduleNotifyExtrinsic in Hrun. unfold bind at 1 in Hrun.
    rewrite (validateTimestampsM_returns Signer lim st timestamps Hv) in Hrun.
    unfold returns in Hrun. rewrite assemble_and_sign in Hrun.
    destruct (api st) as [a |] eqn:Hapi.
    + rewrite (getAPIClient_cached Signer create st a Hapi) in Hrun.
      inversion Hrun as [[Hsig Hst]]. exists a. simpl.
      split; [exact Hapi |]. split; [exact Hsig |].
      exists []. split; [left; auto | reflexivity].
    + rewrite (getAPIClient_disconnected create st Hapi) in Hrun.
      destruct create as [e | a]; [unfold throw in Hrun; discriminate |].
      inversion Hrun as [[Hsig Hst]]. exists a. simpl.
      split; [reflexivity |]. split; [exact Hsig |].
      exists [Connect]. split; [right; auto |].
      rewrite <- app_assoc. reflexivity.
Qed.

(** X12: When the transfer builder returns a hex string, the schedule had
    passed [validateTimestamps], the amount is not below the minimum, the
    receiving address differs from the sending one, and the string is what
    the signer gave for [scheduleNativeTransferTask] on the converted
    timestamps. *)
Theorem buildScheduleNativeTransferExtrinsic_sound
    (create : Result (ApiPromise Signer)) (st st' : State Signer)
    (address providedText receivingAddress : string) (amount : Z)
    (timestamps : list Z) (signer : Signer) (hex : HexString) :
  buildScheduleNativeTransferExtrinsic create lim minimum
    address providedText timestamps receivingAddress amount signer st
  = (returns hex, st') ->
  validateTimestamps lim (clock st) timestamps = returns tt /\
  minimum <= amount /\
  address <> receivingAddress /\
  exists a,
    api st' = Some a /\
    signAsync a
      (scheduleNativeTransferTask providedText (convertToSeconds timestamps)
         receivingAddress amount) address signer = returns hex.
Proof.
  intros Hrun.
  destruct (validateTimestamps lim (clock st) timestamps) as [e | []] eqn:Hv.
  - exfalso. unfold buildScheduleNativeTransferExtrinsic in Hrun.
    unfold bind at 1 in Hrun.
    rewrite (validateTimestampsM_throws Signer lim st timestamps e Hv) in Hrun.
    unfold throw, returns in Hrun. discriminate.
  - split; [reflexivity |].
    unfold buildScheduleNativeTransferExtrinsic in Hrun. unfold bind at 1 in Hrun.
    rewrite (validateTimestampsM_returns Signer lim st timestamps Hv) in Hrun.
    unfold returns in Hrun. unfold bind at 1 in Hrun. unfold lift at 1 in Hrun.
    destruct (validateTransferParams minimum amount address receivingAddress)
      as [e | []] eqn:Hp; [discriminate |].
    apply validateTransferParams_returns_iff in Hp. destruct Hp as [Hamount Hdiff].
    split; [exact Hamount |]. split; [exact Hdiff |].
    rewrite assemble_and_sign in Hrun.
    destruct (api st) as [a |] eqn:Hapi.
    + rewrite (getAPIClient_cached Signer create st a Hapi) in Hrun.
      inversion Hrun as [[Hsig Hst]]. exists a. simpl. auto.
    + rewrite (getAPIClient_disconnected create st Hapi) in Hrun.
      destruct create as [e | a]; [unfold throw in Hrun; discriminate |].
      inversion Hrun as [[Hsig Hst]]. exists a. simpl. auto.
Qed.

(** X13: Timestamps that [convertToSeconds] takes for seconds reach the
    extrinsic as they are: with a client at hand, an accepted schedule of
    values up to 100_000_000_000 is put into [scheduleNotifyTask]
    unchanged and in the same order. *)
Theorem buildScheduleNotifyExtrinsic_seconds_unchanged
    (create : Result (ApiPromise Signer)) (st : State Signer) (a : ApiPromise Signer)
    (address message : string) (providedID : Z) (timestamps : list Z)
    (signer : Signer) :
  api st = Some a ->
  validateTimestamps lim (clock st) timestamps = returns tt ->
  Forall (fun t => t <= 100000000000) timestamps ->
  buildScheduleNotifyExtrinsic create lim address providedID timestamps message signer st
  = (signAsync a (scheduleNotifyTask providedID (map inject_Z timestamps) message)
       address signer,
     add_calls st
       [Assemble (scheduleNotifyTask providedID (map inject_Z timestamps) message);
        Sign address (scheduleNotifyTask providedID (map inject_Z timestamps) message)]).
Proof.
  intros Hapi Hv Hs.
  rewrite (buildScheduleNotifyExtrinsic_valid create st a address message
             providedID timestamps signer Hapi Hv).
  assert (Hconv : convertToSeconds timestamps = map inject_Z timestamps).
  { unfold convertToSeconds. apply map_ext_in. intros t Hin.
    rewrite Forall_forall in Hs. specialize (Hs t Hin). simpl in *.
    destruct (Z.gtb_spec t 100000000000); [lia | reflexivity]. }
  rewrite Hconv. reflexivity.
Qed.

(** ** The status callback *)

(** With a client at hand the default handler writes the lines of
    [handlerLines] and does nothing else. *)
Lemma defaultErrorHandler_lines
    (create : Result (ApiPromise Signer)) (st : State Signer) (a : ApiPromise Signer)
    (result : ISubmittableResult) :
  api st = Some a ->
  defaultErrorHandler create stringify result st
  = (returns tt, add_lines st (handlerLines stringify a result)).
Proof.
  intros Hapi. unfold defaultErrorHandler, handlerLines, bind, console_log at 1.
  destruct (status_isFinalized result); [| reflexivity].
  destruct (dispatchError result) as [[m | rendered] |].
  - rewrite (getAPIClient_cached Signer create _ a) by exact Hapi.
    unfold console_log. rewrite add_lines_add_lines. reflexivity.
  - unfold console_log. rewrite add_lines_add_lines. reflexivity.
  - reflexivity.
Qed.

Lemma deliver_default_lines
    (create : Result (ApiPromise Signer)) (events : list ISubmittableResult)
    (st : State Signer) (a : ApiPromise Signer) :
  api st = Some a ->
  deliver events (sendCallback create stringify None) st
  = (returns tt,
     add_lines st
       (flat_map (fun result =>
                    "Using default error handler"%string ::
                    handlerLines stringify a result) events)).
Proof.
  revert st. induction events as [| result rest IH]; intros st Hapi.
  - simpl. unfold ret, returns, add_lines. rewrite app_nil_r.
    destruct st; reflexivity.
  - change (deliver (result :: rest) (sendCallback create stringify None) st)
      with (deliver rest (sendCallback create stringify None)
              (snd (sendCallback create stringify None result st))).
    rewrite sendCallback_default.
    rewrite (defaultErrorHandler_lines create
               (add_lines st ["Using default error handler"%string]) a result Hapi).
    simpl snd. rewrite add_lines_add_lines.
    rewrite IH by exact Hapi. rewrite add_lines_add_lines. reflexivity.
Qed.

(** The run of [sendExtrinsic] with the default handler once the
    submission was accepted. *)
Lemma sendExtrinsic_default_run
    (create : Result (ApiPromise Signer)) (st : State Signer) (a : ApiPromise Signer)
    (extrinsicHex : HexString) (txObject : Submittable)
    (stream : list ISubmittableResult) :
  api st = Some a ->
  tx a extrinsicHex = returns txObject ->
  send txObject = returns stream ->
  sendExtrinsic create stringify extrinsicHex None st
  = (returns (hash txObject),
     add_calls
       (add_lines st
          (flat_map (fun result =>
                       "Using default error handler"%string ::
                       handlerLines stringify a result)
                    (observedBeforeUnsubscribe stream)))
       [Submit extrinsicHex; Unsubscribe]).
Proof.
  intros Hapi Htx Hsend.
  rewrite (sendExtrinsic_connected Signer create stringify st a extrinsicHex None Hapi).
  unfold returns in Htx, Hsend. rewrite Htx, Hsend.
  rewrite (deliver_default_lines create (observedBeforeUnsubscribe stream)
             (add_calls st [Submit extrinsicHex]) a Hapi).
  unfold add_calls, add_lines; simpl. rewrite <- app_assoc. reflexivity.
Qed.

(** X14: Without a handler of the caller, with a client at hand and a
    submission that the node accepts, [sendExtrinsic] writes to the
    console, for each status event observed before the unsubscription,
    the announcement of the default handler, the status line and the line
    of the dispatch error if the result is finalized with one; it
    submits, unsubscribes and returns the hash of the decoded
    extrinsic. *)
Theorem sendExtrinsic_default_console
    (create : Result (ApiPromise Signer)) (st : State Signer) (a : ApiPromise Signer)
    (extrinsicHex : HexString) (txObject : Submittable)
    (stream : list ISubmittableResult) :
  api st = Some a ->
  tx a extrinsicHex = returns txObject ->
  send txObject = returns stream ->
  sendExtrinsic create stringify extrinsicHex None st
  = (returns (hash txObject),
     add_calls
       (add_lines st
          (flat_map (fun result =>
                       "Using default error handler"%string ::
                       handlerLines stringify a result)
                    (observedBeforeUnsubscribe stream)))
       [Submit extrinsicHex; Unsubscribe]).
Proof.
  intros Hapi Htx Hsend.
  rewrite (sendExtrinsic_connected Signer create stringify st a extrinsicHex None Hapi).
  unfold returns in Htx, Hsend. rewrite Htx, Hsend.
  rewrite (deliver_default_lines create (observedBeforeUnsubscribe stream)
             (add_calls st [Submit extrinsicHex]) a Hapi).
  unfold add_calls, add_lines; simpl. rewrite <- app_assoc. reflexivity.
Qed.

(** X15: With a handler of the caller, a client at hand and a submission
    that the node accepts, the default handler is not run: each status
    event observed before the unsubscription is announced on the console
    and given to the handler of the caller, and [sendExtrinsic] returns
    the hash whatever the handler returns or throws. *)
Theorem sendExtrinsic_custom_handler
    (create : Result (ApiPromise Signer)) (st : State Signer) (a : ApiPromise Signer)
    (extrinsicHex : HexString) (handler : ISubmittableResult -> M Signer unit)
    (txObject : Submittable) (stream : list ISubmittableResult) :
  api st = Some a ->
  tx a extrinsicHex = returns txObject ->
  send txObject = returns stream ->
  sendExtrinsic create stringify extrinsicHex (Some handler) st
  = (returns (hash txObject),
     add_calls
       (fold_left
          (fun s result =>
             snd (handler result (add_lines s ["Using custom error handler"%string])))
          (observedBeforeUnsubscribe stream)
          (add_calls st [Submit extrinsicHex]))
       [Unsubscribe]).
Proof.
  intros Hapi Htx Hsend.
  rewrite (sendExtrinsic_connected Signer create stringify st a extrinsicHex
             (Some handler) Hapi).
  unfold returns in Htx, Hsend. rewrite Htx, Hsend.
  f_equal. f_equal.
  generalize (add_calls st [Submit extrinsicHex]).
  induction (observedBeforeUnsubscribe stream) as [| result rest IH]; intros s.
  - reflexivity.
  - simpl. rewrite IH. reflexivity.
Qed.

(** X19: With a client at hand, bytes that cannot be decoded make
    [sendExtrinsic] throw before anything is submitted, and a submission
    that the node rejects makes it throw after the submission with
    nothing written to the console and no unsubscription, whatever the
    handler is. *)
Theorem sendExtrinsic_rejections
    (create : Result (ApiPromise Signer)) (st : State Signer) (a : ApiPromise Signer)
    (extrinsicHex : HexString)
    (handleDispatch : option (ISubmittableResult -> M Signer unit)) (e : Error) :
  api st = Some a ->
  (tx a extrinsicHex = throw e ->
   sendExtrinsic create stringify extrinsicHex handleDispatch st = (throw e, st)) /\
  (forall txObject,
     tx a extrinsicHex = returns txObject ->
     send txObject = throw e ->
     sendExtrinsic create stringify extrinsicHex handleDispatch st
     = (throw e, add_calls st [Submit extrinsicHex])).
Proof.
  intros Hapi.
  rewrite (sendExtrinsic_connected Signer create stringify st a extrinsicHex
             handleDispatch Hapi).
  split.
  - intros Htx. unfold throw in Htx. rewrite Htx. reflexivity.
  - intros txObject Htx Hsend. unfold returns in Htx. unfold throw in Hsend.
    rewrite Htx, Hsend. reflexivity.
Qed.

(** X16: The default handler needs the client only to decode a module error:
    for a result that is not finalized or carries no module error it
    returns from any state, connected or not, with no interaction; for a
    finalized module error without client and with a connection that
    fails, it throws the connection error after the status line. *)
Theorem defaultErrorHandler_connects_only_to_decode
    (create : Result (ApiPromise Signer)) (st : State Signer)
    (result : ISubmittableResult) :
  (status_isFinalized result = false \/
   (forall m, dispatchError result <> Some (ModuleDispatch m)) ->
   exists lines,
     defaultErrorHandler create stringify result st
     = (returns tt, add_lines st lines)) /\
  (forall m e,
     status_isFinalized result = true ->
     dispatchError result = Some (ModuleDispatch m) ->
     api st = None ->
     create = throw e ->
     defaultErrorHandler create stringify result st
     = (throw e,
        add_calls (add_lines st [("Tx status: " ++ status_type result)%string])
          [Connect])).
Proof.
  split.
  - intros Hcase. unfold defaultErrorHandler, bind, console_log at 1.
    destruct (status_isFinalized result) eqn:Hfin.
    + destruct Hcase as [Hf | Hnot]; [discriminate |].
      destruct (dispatchError result) as [[m | rendered] |].
      * exfalso. apply (Hnot m). reflexivity.
      * unfold console_log. rewrite add_lines_add_lines. eexists. reflexivity.
      * eexists. reflexivity.
    + eexists. reflexivity.
  - intros m e Hfin Hde Hapi Hcreate.
    unfold defaultErrorHandler, bind, console_log at 1.
    rewrite Hfin, Hde.
    rewrite (getAPIClient_disconnected create
               (add_lines st [("Tx status: " ++ status_type result)%string]) Hapi).
    rewrite Hcreate. reflexivity.
Qed.

(** X17: Once connected, the scheduler stays connected to the same client and
    no method opens another connection: not the query of the task id, not
    the three builders, not [sendExtrinsic] with the default handler, not
    the default handler itself. *)
Theorem methods_reuse_connection
    (create : Result (ApiPromise Signer)) (st : State Signer) (a : ApiPromise Signer)
    (address receivingAddress message providedText : string)
    (providedID amount : Z) (timestamps : list Z) (signer : Signer)
    (extrinsicHex : HexString) (result : ISubmittableResult) :
  api st = Some a ->
  reusesConnection (getTaskID create generateTaskId address providedText) a st /\
  reusesConnection (buildCancelTaskExtrinsic create address providedID signer) a st /\
  reusesConnection
    (buildScheduleNotifyExtrinsic create lim
       address providedID timestamps message signer) a st /\
  reusesConnection
    (buildScheduleNativeTransferExtrinsic create lim minimum
       address providedText timestamps receivingAddress amount signer) a st /\
  reusesConnection (sendExtrinsic create stringify extrinsicHex None) a st /\
  reusesConnection (defaultErrorHandler create stringify result) a st.
Proof.
  intros Hapi.
  split; [| split; [| split; [| split; [| split]]]].
  - apply (reusesConnection_unchanged _ a st
             (generateTaskId a address providedText) Hapi).
    unfold getTaskID, bind.
    rewrite (getAPIClient_cached Signer create st a Hapi). reflexivity.
  - eapply (reusesConnection_add_calls _ a st st); try reflexivity;
      [exact Hapi | apply assemble_sign_no_connect |].
    apply buildCancelTaskExtrinsic_connected. exact Hapi.
  - destruct (validateTimestamps lim (clock st) timestamps) as [e | []] eqn:Hv.
    + apply (reusesConnection_unchanged _ a st (throw e) Hapi).
      unfold buildScheduleNotifyExtrinsic. unfold bind at 1.
      rewrite (validateTimestampsM_throws Signer lim st timestamps e Hv). reflexivity.
    + eapply (reusesConnection_add_calls _ a st st); try reflexivity;
        [exact Hapi | apply assemble_sign_no_connect |].
      apply buildScheduleNotifyExtrinsic_valid; [exact Hapi | exact Hv].
  - destruct (validateTimestamps lim (clock st) timestamps) as [e | []] eqn:Hv.
    + apply (reusesConnection_unchanged _ a st (throw e) Hapi).
      unfold buildScheduleNativeTransferExtrinsic. unfold bind at 1.
      rewrite (validateTimestampsM_throws Signer lim st timestamps e Hv). reflexivity.
    + destruct (validateTransferParams minimum amount address receivingAddress)
        as [e | []] eqn:Hp.
      * apply (reusesConnection_unchanged _ a st (throw e) Hapi).
        unfold buildScheduleNativeTransferExtrinsic. unfold bind at 1.
        rewrite (validateTimestampsM_returns Signer lim st timestamps Hv).
        unfold returns. unfold bind at 1. unfold lift at 1. rewrite Hp. reflexivity.
      * eapply (reusesConnection_add_calls _ a st st); try reflexivity;
          [exact Hapi | apply assemble_sign_no_connect |].
        apply buildScheduleNativeTransferExtrinsic_valid;
          [exact Hapi | exact Hv | exact Hp].
  - unfold reusesConnection.
    rewrite (sendExtrinsic_connected Signer create stringify st a extrinsicHex
               None Hapi).
    destruct (tx a extrinsicHex) as [e | txObject].
    + simpl. split; [exact Hapi |]. exists []. rewrite app_nil_r. auto.
    + destruct (send txObject) as [e | stream].
      * simpl. split; [exact Hapi |]. exists [Submit extrinsicHex].
        split; [reflexivity |]. simpl. intros [H | []]; discriminate.
      * rewrite (deliver_default_lines create (observedBeforeUnsubscribe stream)
                   (add_calls st [Submit extrinsicHex]) a Hapi). simpl.
        split; [exact Hapi |]. exists [Submit extrinsicHex; Unsubscribe].
        split; [rewrite <- app_assoc; reflexivity |].
        simpl. intros [H | [H | []]]; discriminate.
  - unfold reusesConnection.
    rewrite (defaultErrorHandler_lines create st a result Hapi). simpl.
    split; [exact Hapi |]. exists []. rewrite app_nil_r. auto.
Qed.


(** ** The subscription and the default path *)

(** A client that [getAPIClient] hands out is the one kept from then on. *)
Lemma getAPIClient_obtained
    (create : Result (ApiPromise Signer)) (st st1 : State Signer)
    (a : ApiPromise Signer) :
  getAPIClient create st = (returns a, st1) ->
  api st1 = Some a /\ console st1 = console st.
Proof.
  unfold getAPIClient, bind, get_api, interact, lift, set_api, ret, returns.
  destruct (api st) as [cached |] eqn:Hapi; simpl.
  - intros Heq. inversion Heq; subst. auto.
  - destruct create as [e | a0]; simpl; intros Heq; inversion Heq; subst; auto.
Qed.

Lemma sendExtrinsic_from
    (create : Result (ApiPromise Signer)) (st st1 : State Signer)
    (a : ApiPromise Signer) (extrinsicHex : HexString)
    (handleDispatch : option (ISubmittableResult -> M Signer unit)) :
  getAPIClient create st = (returns a, st1) ->
  sendExtrinsic create stringify extrinsicHex handleDispatch st
  = sendExtrinsic create stringify extrinsicHex handleDispatch st1.
Proof.
  intros Hget. destruct (getAPIClient_obtained create st st1 a Hget) as [Hapi _].
  unfold sendExtrinsic. unfold bind at 1. rewrite Hget.
  symmetry. unfold bind at 1.
  rewrite (getAPIClient_cached Signer create st1 a Hapi). reflexivity.
Qed.

(** C3: once a client is obtained, the bytes are decoded and the node
    accepts the submission, [sendExtrinsic] unsubscribes right after the
    submission: of the status stream only the first event, if there is
    one, reaches the callback, and the later events play no part.  The
    value returned is the hash of the decoded bytes, whatever the events
    are and whether or not one of them is finalized.  With the default
    handler the interactions are the submission followed by the
    unsubscription, and the console holds the lines of that first event
    only. *)
Theorem C3_unsubscribed_after_first_event
    (create : Result (ApiPromise Signer)) (st st1 : State Signer)
    (a : ApiPromise Signer) (extrinsicHex : HexString)
    (handleDispatch : option (ISubmittableResult -> M Signer unit))
    (txObject : Submittable) (stream : list ISubmittableResult) :
  getAPIClient create st = (returns a, st1) ->
  tx a extrinsicHex = returns txObject ->
  send txObject = returns stream ->
  sendExtrinsic create stringify extrinsicHex handleDispatch st
  = (returns (hash txObject),
     add_calls
       match stream with
       | [] => add_calls st1 [Submit extrinsicHex]
       | first :: _ =>
           snd (sendCallback create stringify handleDispatch first
                  (add_calls st1 [Submit extrinsicHex]))
       end
       [Unsubscribe]) /\
  (handleDispatch = None ->
   calls (snd (sendExtrinsic create stringify extrinsicHex handleDispatch st))
   = calls st1 ++ [Submit extrinsicHex; Unsubscribe] /\
   console (snd (sendExtrinsic create stringify extrinsicHex handleDispatch st))
   = console st1 ++
     match stream with
     | [] => []
     | first :: _ =>
         "Using default error handler"%string :: handlerLines stringify a first
     end).
Proof.
  intros Hget Htx Hsend.
  destruct (getAPIClient_obtained create st st1 a Hget) as [Hapi _].
  rewrite (sendExtrinsic_from create st st1 a extrinsicHex handleDispatch Hget).
  rewrite (sendExtrinsic_connected Signer create stringify st1 a extrinsicHex
             handleDispatch Hapi).
  unfold returns in Htx, Hsend. rewrite Htx, Hsend. split.
  - destruct stream as [| first rest]; reflexivity.
  - intros ->.
    rewrite (deliver_default_lines create (observedBeforeUnsubscribe stream)
               (add_calls st1 [Submit extrinsicHex]) a Hapi).
    simpl. split.
    + rewrite <- app_assoc. reflexivity.
    + destruct stream as [| first rest]; simpl; [reflexivity |].
      rewrite app_nil_r. reflexivity.
Qed.

(** Without client and with a node that can be reached, the default
    handler returns and writes its lines. *)
Lemma defaultErrorHandler_connecting
    (st : State Signer) (a : ApiPromise Signer) (result : ISubmittableResult) :
  api st = None ->
  exists st',
    defaultErrorHandler (inr a) stringify result st = (returns tt, st') /\
    console st' = console st ++ handlerLines stringify a result.
Proof.
  intros Hapi. unfold defaultErrorHandler, handlerLines, bind, console_log at 1.
  destruct (status_isFinalized result).
  - destruct (dispatchError result) as [[m | rendered] |].
    + rewrite (getAPIClient_disconnected (inr a)
                 (add_lines st [("Tx status: " ++ status_type result)%string]) Hapi).
      cbv iota. unfold console_log.
      eexists. split; [reflexivity |]. simpl. rewrite <- app_assoc. reflexivity.
    + unfold console_log.
      eexists. split; [reflexivity |]. simpl. rewrite <- app_assoc. reflexivity.
    + eexists. split; reflexivity.
  - eexists. split; reflexivity.
Qed.

(** C7, as the code has it: whenever the client is at hand, kept or
    obtained by connecting, [defaultErrorHandler] returns and writes the
    status line and, for a finalized result with a dispatch error, the
    line of the decoded module error or of the rendered error; without a
    module error to decode it does so from any state.  It throws in one
    case only: a finalized module error, no client, and a connection that
    fails; the error is the one of the connection.  For the caller of
    [sendExtrinsic] with the default handler the outcome is decided by
    the connection, the decoding and the acceptance of the submission:
    no status event and no dispatch error changes it, and after an
    accepted submission the console holds the lines of the default
    handler for the events observed. *)
Theorem C7_default_path_outcomes
    (create : Result (ApiPromise Signer)) (st : State Signer)
    (result : ISubmittableResult) (extrinsicHex : HexString) :
  (forall a st1,
     getAPIClient create st = (returns a, st1) ->
     fst (defaultErrorHandler create stringify result st) = returns tt /\
     console (snd (defaultErrorHandler create stringify result st))
     = console st ++ handlerLines stringify a result) /\
  (status_isFinalized result = false \/
   (forall m, dispatchError result <> Some (ModuleDispatch m)) ->
   forall a : ApiPromise Signer,
     defaultErrorHandler create stringify result st
     = (returns tt, add_lines st (handlerLines stringify a result))) /\
  (forall e,
     fst (defaultErrorHandler create stringify result st) = throw e ->
     status_isFinalized result = true /\
     (exists m, dispatchError result = Some (ModuleDispatch m)) /\
     api st = None /\ create = throw e) /\
  fst (sendExtrinsic create stringify extrinsicHex None st)
  = match fst (getAPIClient create st) with
    | inl e => throw e
    | inr a =>
        match tx a extrinsicHex with
        | inl e => throw e
        | inr txObject =>
            match send txObject with
            | inl e => throw e
            | inr _ => returns (hash txObject)
            end
        end
    end /\
  (forall a st1 txObject stream,
     getAPIClient create st = (returns a, st1) ->
     tx a extrinsicHex = returns txObject ->
     send txObject = returns stream ->
     console (snd (sendExtrinsic create stringify extrinsicHex None st))
     = console st1 ++
       flat_map (fun observed =>
                   "Using default error handler"%string ::
                   handlerLines stringify a observed)
                (observedBeforeUnsubscribe stream)).
Proof.
  split; [| split; [| split; [| split]]].
  - intros a st1 Hget.
    destruct (api st) as [cached |] eqn:Hapi.
    + rewrite (getAPIClient_cached Signer create st cached Hapi) in Hget.
      inversion Hget; subst.
      rewrite (defaultErrorHandler_lines create st1 a result Hapi). auto.
    + rewrite (getAPIClient_disconnected create st Hapi) in Hget.
      destruct create as [e | a0]; [discriminate |].
      inversion Hget; subst. clear Hget.
      destruct (defaultErrorHandler_connecting st a result Hapi) as (st' & Hrun & Hlines).
      rewrite Hrun. simpl. auto.
  - intros Hcase a. unfold defaultErrorHandler, handlerLines, bind, console_log at 1.
    destruct (status_isFinalized result) eqn:Hfin.
    + destruct Hcase as [Hf | Hnot]; [discriminate |].
      destruct (dispatchError result) as [[m | rendered] |].
      * exfalso. apply (Hnot m). reflexivity.
      * unfold console_log. rewrite add_lines_add_lines. reflexivity.
      * reflexivity.
    + reflexivity.
  - intros e. unfold defaultErrorHandler, bind, console_log at 1.
    destruct (status_isFinalized result); [| intros H; discriminate H].
    destruct (dispatchError result) as [[m | rendered] |];
      [| intros H; discriminate H | intros H; discriminate H].
    destruct (api st) as [cached |] eqn:Hapi.
    + rewrite (getAPIClient_cached Signer create
                 (add_lines st [("Tx status: " ++ status_type result)%string])
                 cached Hapi).
      intros H; discriminate H.
    + rewrite (getAPIClient_disconnected create
                 (add_lines st [("Tx status: " ++ status_type result)%string]) Hapi).
      destruct create as [e0 | a0]; simpl; intros H; [| discriminate H].
      inversion H; subst. repeat split. exists m. reflexivity.
  - unfold sendExtrinsic. unfold bind at 1.
    destruct (getAPIClient create st) as [[e | a] st1]; [reflexivity |].
    simpl fst. unfold bind at 1. unfold lift at 1.
    destruct (tx a extrinsicHex) as [e | txObject]; [reflexivity |].
    unfold bind at 1. unfold interact at 1. unfold bind at 1. unfold lift at 1.
    destruct (send txObject) as [e | stream]; [reflexivity |].
    unfold bind at 1.
    pose proof (deliver_returns Signer (observedBeforeUnsubscribe stream)
                  (sendCallback create stringify None)
                  (add_calls st1 [Submit extrinsicHex])) as Hret.
    destruct (deliver (observedBeforeUnsubscribe stream)
                (sendCallback create stringify None)
                (add_calls st1 [Submit extrinsicHex])) as [r st2].
    simpl in Hret. subst r. reflexivity.
  - intros a st1 txObject stream Hget Htx Hsend.
    destruct (getAPIClient_obtained create st st1 a Hget) as [Hapi _].
    rewrite (sendExtrinsic_from create st st1 a extrinsicHex None Hget).
    rewrite (sendExtrinsic_connected Signer create stringify st1 a extrinsicHex
               None Hapi).
    unfold returns in Htx, Hsend. rewrite Htx, Hsend.
    rewrite (deliver_default_lines create (observedBeforeUnsubscribe stream)
               (add_calls st1 [Submit extrinsicHex]) a Hapi).
    reflexivity.
Qed.

End Connection.

Lemma getAPIClient_keeps_witness :
  getAPIClient (returns sampleApi) freshState = (returns sampleApi, connectedState) /\
  api connectedState = Some sampleApi /\
  getAPIClient (throw offline) connectedState = (returns sampleApi, connectedState).
Proof.
  assert (Hrun : getAPIClient (returns sampleApi) freshState
                 = (returns sampleApi, connectedState)) by reflexivity.
  split; [exact Hrun |].
  exact (proj1 (getAPIClient_keeps_success_only unit (returns sampleApi)
                  (throw offline) freshState) sampleApi connectedState Hrun).
Defined.

Lemma connection_failure_witness :
  api freshState = None /\
  sendExtrinsic (throw offline) sampleStringify "0x2a" None freshState
  = (throw offline, add_calls freshState [Connect]) /\
  buildScheduleNotifyExtrinsic (throw offline) 2592000000
    "alice" 7 [1700002800] "ping" tt freshState
  = (throw offline, add_calls freshState [Connect]).
Proof.
  assert (Hapi : api freshState = None) by reflexivity.
  pose proof (connection_failure_comes_first unit sampleStringify sampleTaskId
                2592000000 1000000000 freshState offline
                "alice" "bob" "ping" "task-7" 7 5000000000 [1700002800] tt
                "0x2a"%string None Hapi) as (_ & _ & Hsend & Hbuild).
  split; [exact Hapi |]. split; [exact Hsend |].
  exact (proj1 (Hbuild eq_refl)).
Defined.

Lemma buildScheduleNotifyExtrinsic_sound_witness :
  buildScheduleNotifyExtrinsic (returns sampleApi) 2592000000
    "alice" 7 [1700002800] "ping" tt freshState
  = (returns "0x2a"%string,
     add_calls connectedState
       [Assemble (scheduleNotifyTask 7 [inject_Z 1700002800] "ping");
        Sign "alice" (scheduleNotifyTask 7 [inject_Z 1700002800] "ping")]) /\
  validateTimestamps 2592000000 (clock freshState) [1700002800] = returns tt.
Proof.
  assert (Hrun : buildScheduleNotifyExtrinsic (returns sampleApi) 2592000000
                   "alice" 7 [1700002800] "ping" tt freshState
                 = (returns "0x2a"%string,
                    add_calls connectedState
                      [Assemble (scheduleNotifyTask 7 [inject_Z 1700002800] "ping");
                       Sign "alice"
                         (scheduleNotifyTask 7 [inject_Z 1700002800] "ping")]))
    by reflexivity.
  split; [exact Hrun |].
  exact (proj1 (buildScheduleNotifyExtrinsic_sound unit 2592000000
                  (returns sampleApi) freshState _ "alice" "ping" 7
                  [1700002800] tt "0x2a"%string Hrun)).
Defined.

Lemma buildScheduleNativeTransferExtrinsic_sound_witness :
  fst (buildScheduleNativeTransferExtrinsic (returns sampleApi) 2592000000 1000000000
         "alice" "task-7" [1700002800] "bob" 5000000000 tt freshState)
  = returns "0x2a"%string /\
  1000000000 <= 5000000000 /\ "alice"%string <> "bob"%string.
Proof.
  split; [reflexivity |].
  pose proof (buildScheduleNativeTransferExtrinsic_sound unit 2592000000 1000000000
                (returns sampleApi) freshState
                (snd (buildScheduleNativeTransferExtrinsic (returns sampleApi)
                        2592000000 1000000000
                        "alice" "task-7" [1700002800] "bob" 5000000000 tt freshState))
                "alice" "task-7" "bob" 5000000000 [1700002800] tt "0x2a"%string
                eq_refl) as (_ & Hamount & Hdiff & _).
  split; [exact Hamount | exact Hdiff].
Defined.

Lemma buildScheduleNotifyExtrinsic_seconds_witness :
  api connectedState = Some sampleApi /\
  validateTimestamps 2592000000 (clock connectedState) [1700002800; 1700006400]
  = returns tt /\
  Forall (fun t => t <= 100000000000) [1700002800; 1700006400] /\
  buildScheduleNotifyExtrinsic (throw offline) 2592000000
    "alice" 7 [1700002800; 1700006400] "ping" tt connectedState
  = (returns "0x2a"%string,
     add_calls connectedState
       [Assemble (scheduleNotifyTask 7 [inject_Z 1700002800; inject_Z 1700006400] "ping");
        Sign "alice"
          (scheduleNotifyTask 7 [inject_Z 1700002800; inject_Z 1700006400] "ping")]).
Proof.
  assert (Hapi : api connectedState = Some sampleApi) by reflexivity.
  assert (Hv : validateTimestamps 2592000000 (clock connectedState)
                 [1700002800; 1700006400] = returns tt) by reflexivity.
  assert (Hs : Forall (fun t => t <= 100000000000) [1700002800; 1700006400])
    by (repeat constructor; vm_compute; discriminate).
  split; [exact Hapi |]. split; [exact Hv |]. split; [exact Hs |].
  exact (buildScheduleNotifyExtrinsic_seconds_unchanged unit 2592000000
           (throw offline) connectedState sampleApi "alice" "ping" 7
           [1700002800; 1700006400] tt Hapi Hv Hs).
Defined.

Lemma sendExtrinsic_default_console_witness :
  api connectedState = Some sampleApi /\
  console (snd (sendExtrinsic (throw offline) sampleStringify "0x2a" None
                  connectedState))
  = [ "Using default error handler"; "Tx status: Ready" ]%string.
Proof.
  assert (Hapi : api connectedState = Some sampleApi) by reflexivity.
  split; [exact Hapi |].
  rewrite (sendExtrinsic_default_console unit sampleStringify (throw offline)
             connectedState sampleApi "0x2a"%string
             {| hash := "hash:0x2a"; send := returns sampleStream |} sampleStream
             Hapi eq_refl eq_refl).
  reflexivity.
Defined.

Lemma sendExtrinsic_custom_handler_witness :
  api connectedState = Some sampleApi /\
  sendExtrinsic (throw offline) sampleStringify "0x2a"
    (Some (fun _ => lift unit (throw offline))) connectedState
  = (returns "hash:0x2a"%string,
     add_calls
       (add_lines connectedState ["Using custom error handler"%string])
       [Submit "0x2a"%string; Unsubscribe]).
Proof.
  assert (Hapi : api connectedState = Some sampleApi) by reflexivity.
  split; [exact Hapi |].
  rewrite (sendExtrinsic_custom_handler unit sampleStringify (throw offline)
             connectedState sampleApi "0x2a"%string
             (fun _ => lift unit (throw offline))
             {| hash := "hash:0x2a"; send := returns sampleStream |} sampleStream
             Hapi eq_refl eq_refl).
  reflexivity.
Defined.

Lemma sendExtrinsic_rejections_witness :
  api connectedState = Some sampleApi /\
  sendExtrinsic (throw offline) sampleStringify "not hex at all" None connectedState
  = (throw (MkError "createType(Call): not a hex string"), connectedState) /\
  sendExtrinsic (throw offline) sampleStringify "0x" None connectedState
  = (throw (MkError "1010: Invalid Transaction"),
     add_calls connectedState [Submit "0x"%string]).
Proof.
  assert (Hapi : api connectedState = Some sampleApi) by reflexivity.
  split; [exact Hapi |]. split.
  - exact (proj1 (sendExtrinsic_rejections unit sampleStringify (throw offline)
                    connectedState sampleApi "not hex at all"%string None
                    (MkError "createType(Call): not a hex string") Hapi) eq_refl).
  - exact (proj2 (sendExtrinsic_rejections unit sampleStringify (throw offline)
                    connectedState sampleApi "0x"%string None
                    (MkError "1010: Invalid Transaction") Hapi)
             {| hash := "hash:0x";
                send := throw (MkError "1010: Invalid Transaction") |}
             eq_refl eq_refl).
Defined.

Lemma C3_unsubscribed_witness :
  getAPIClient (returns sampleApi) freshState = (returns sampleApi, connectedState) /\
  sendExtrinsic (returns sampleApi) sampleStringify "0x2a" None freshState
  = (returns "hash:0x2a"%string,
     add_calls
       (add_lines connectedState
          ["Using default error handler"; "Tx status: Ready"]%string)
       [Submit "0x2a"%string; Unsubscribe]) /\
  calls (snd (sendExtrinsic (returns sampleApi) sampleStringify "0x2a" None freshState))
  = [Connect; Submit "0x2a"%string; Unsubscribe].
Proof.
  assert (Hget : getAPIClient (returns sampleApi) freshState
                 = (returns sampleApi, connectedState)) by reflexivity.
  pose proof (C3_unsubscribed_after_first_event unit sampleStringify
                (returns sampleApi) freshState connectedState sampleApi
                "0x2a"%string None
                {| hash := "hash:0x2a"; send := returns sampleStream |} sampleStream
                Hget eq_refl eq_refl) as [Hrun Hdefault].
  split; [exact Hget |]. split; [exact Hrun |].
  exact (proj1 (Hdefault eq_refl)).
Defined.

Lemma C7_default_path_witness :
  getAPIClient (returns sampleApi) freshState = (returns sampleApi, connectedState) /\
  fst (defaultErrorHandler (returns sampleApi) sampleStringify moduleFailure freshState)
  = returns tt /\
  console (snd (defaultErrorHandler (returns sampleApi) sampleStringify
                  moduleFailure freshState))
  = [ "Tx status: Finalized";
      "Transaction finalized with error by blockchain automationTime.InsufficientBalance"
    ]%string /\
  console (snd (sendExtrinsic (returns sampleApi) sampleStringify "0x2a" None
                  freshState))
  = [ "Using default error handler"; "Tx status: Ready" ]%string.
Proof.
  assert (Hget : getAPIClient (returns sampleApi) freshState
                 = (returns sampleApi, connectedState)) by reflexivity.
  pose proof (C7_default_path_outcomes unit sampleStringify (returns sampleApi)
                freshState moduleFailure "0x2a"%string)
    as (Hhandler & _ & _ & _ & Hconsole).
  split; [exact Hget |].
  destruct (Hhandler sampleApi connectedState Hget) as [Hreturns Hlines].
  split; [exact Hreturns |]. split; [exact Hlines |].
  exact (Hconsole sampleApi connectedState
           {| hash := "hash:0x2a"; send := returns sampleStream |} sampleStream
           Hget eq_refl eq_refl).
Defined.

(** C7 as stated fails: the default handler, given a finalized result
    with a module error on a scheduler that has no client and cannot
    connect, throws. *)
Lemma C7_handler_throws_counterexample :
  status_isFinalized moduleFailure = true /\
  defaultErrorHandler (throw offline) sampleStringify moduleFailure freshState
  = (throw offline,
     add_calls (add_lines freshState ["Tx status: Finalized"%string]) [Connect]) /\
  fst (defaultErrorHandler (throw offline) sampleStringify moduleFailure freshState)
  <> returns tt.
Proof.
  split; [reflexivity |]. split; [reflexivity |]. differ.
Qed.

Lemma defaultErrorHandler_connects_witness :
  defaultErrorHandler (throw offline) sampleStringify moduleFailure freshState
  = (throw offline,
     add_calls (add_lines freshState ["Tx status: Finalized"%string]) [Connect]) /\
  exists lines,
    defaultErrorHandler (throw offline) sampleStringify
      {| status_type := "Finalized"; status_isFinalized := true;
         dispatchError := Some (OtherDispatch "BadOrigin") |} freshState
    = (returns tt, add_lines freshState lines).
Proof.
  split.
  - exact (proj2 (defaultErrorHandler_connects_only_to_decode unit sampleStringify
                    (throw offline) freshState moduleFailure)
             {| pallet_index := 60; error_index := 3 |} offline
             eq_refl eq_refl eq_refl eq_refl).
  - apply (proj1 (defaultErrorHandler_connects_only_to_decode unit sampleStringify
                    (throw offline) freshState
                    {| status_type := "Finalized"; status_isFinalized := true;
                       dispatchError := Some (OtherDispatch "BadOrigin") |})).
    right. intros m. discriminate.
Defined.

Lemma methods_reuse_connection_witness :
  api connectedState = Some sampleApi /\
  reusesConnection (sendExtrinsic (throw offline) sampleStringify "0x2a" None)
    sampleApi connectedState /\
  reusesConnection (getTaskID (throw offline) sampleTaskId "alice" "task-7")
    sampleApi connectedState.
Proof.
  assert (Hapi : api connectedState = Some sampleApi) by reflexivity.
  pose proof (methods_reuse_connection unit sampleStringify sampleTaskId
                2592000000 1000000000 (throw offline) connectedState sampleApi
                "alice" "bob" "ping" "task-7" 7 5000000000 [1700002800] tt
                "0x2a"%string moduleFailure Hapi)
    as (Htask & _ & _ & _ & Hsend & _).
  split; [exact Hapi |]. split; [exact Hsend | exact Htask].
Defined.

(** ** Building, then sending *)

Section Composition.

Variable Signer : Type.
Variable stringify : RegistryError -> string.
Variable lim : Z.

(** X18: From a scheduler without client, building a notify extrinsic for an
    accepted schedule and sending the signed bytes with the default
    handler, when the node decodes them and accepts the submission,
    connects once, assembles, signs, submits and unsubscribes, in this
    order, and returns the hash of the signed bytes. *)
Theorem build_then_send
    (st : State Signer) (a : ApiPromise Signer)
    (address message : string) (providedID : Z) (timestamps : list Z)
    (signer : Signer) (hex : HexString)
    (txObject : Submittable) (stream : list ISubmittableResult) :
  api st = None ->
  validateTimestamps lim (clock st) timestamps = returns tt ->
  signAsync a (scheduleNotifyTask providedID (convertToSeconds timestamps) message)
    address signer = returns hex ->
  tx a hex = returns txObject ->
  send txObject = returns stream ->
  exists st',
    bind Signer
      (buildScheduleNotifyExtrinsic (returns a) lim
         address providedID timestamps message signer)
      (fun extrinsicHex => sendExtrinsic (returns a) stringify extrinsicHex None) st
    = (returns (hash txObject), st') /\
    api st' = Some a /\
    calls st' = calls st ++
      [Connect;
       Assemble (scheduleNotifyTask providedID (convertToSeconds timestamps) message);
       Sign address (scheduleNotifyTask providedID (convertToSeconds timestamps) message);
       Submit hex;
       Unsubscribe].
Proof.
  intros Hapi Hv Hsign Htx Hsend.
  unfold bind at 1. unfold buildScheduleNotifyExtrinsic. unfold bind at 1.
  rewrite (validateTimestampsM_returns Signer lim st timestamps Hv). unfold returns.
  rewrite assemble_and_sign.
  rewrite (getAPIClient_disconnected Signer (inr a) st Hapi).
  cbv beta iota delta [returns]. rewrite Hsign. cbv beta iota delta [returns].
  match goal with
  | |- context [sendExtrinsic _ _ _ _ ?s] =>
      rewrite (sendExtrinsic_default_run Signer stringify (inr a) s a hex
                 txObject stream eq_refl Htx Hsend)
  end.
  eexists. split; [reflexivity |]. simpl. split; [reflexivity |].
  rewrite <- !app_assoc. reflexivity.
Qed.

End Composition.

Lemma build_then_send_witness :
  api freshState = None /\
  validateTimestamps 2592000000 (clock freshState) [1700002800] = returns tt /\
  exists st',
    bind unit
      (buildScheduleNotifyExtrinsic (returns sampleApi) 2592000000
         "alice" 7 [1700002800] "ping" tt)
      (fun extrinsicHex =>
         sendExtrinsic (returns sampleApi) sampleStringify extrinsicHex None)
      freshState
    = (returns "hash:0x2a"%string, st') /\
    api st' = Some sampleApi /\
    calls st' =
      [Connect;
       Assemble (scheduleNotifyTask 7 [inject_Z 1700002800] "ping");
       Sign "alice" (scheduleNotifyTask 7 [inject_Z 1700002800] "ping");
       Submit "0x2a"%string;
       Unsubscribe].
Proof.
  assert (Hapi : api freshState = None) by reflexivity.
  assert (Hv : validateTimestamps 2592000000 (clock freshState) [1700002800]
               = returns tt) by reflexivity.
  split; [exact Hapi |]. split; [exact Hv |].
  exact (build_then_send unit sampleStringify 2592000000 freshState sampleApi
           "alice" "ping" 7 [1700002800] tt "0x2a"%string
           {| hash := "hash:0x2a"; send := returns sampleStream |} sampleStream
           Hapi Hv eq_refl eq_refl eq_refl).
Defined.
